(** * Bangalore real-estate price predictor: the browser front end

    A shallow embedding of [frontend/app.js]: the mock estimator
    ([generateMockPrediction], [getMockCoordinates],
    [generateMockComparables]), the result renderer ([displayResults]),
    the map renderer ([initMap], [updateMap], [clearMarkers]) and the
    prediction client ([predictPrice]).

    Modelling conventions.
    - A JavaScript number is an exact rational ([Q]); the rounding error of
      IEEE doubles is not modelled.  Numeric equalities are therefore
      stated with [==].
    - A JavaScript string is a [string] of bytes; case mapping is the
      ASCII one.
    - [Math.random] is a fixed stream [rand : nat -> Q] read through a
      cursor that every call advances by one.
    - Module-level variables ([map], [markers], [predictionMarker]), the
      DOM elements the script writes and the Leaflet map are fields of one
      state record; a function with effects is a state transformer that
      either returns or throws.
    - The elements the script looks up by id exist; a call of
      [predictPrice] runs to its end before the next event is served. *)

From Stdlib Require Import ZArith QArith Qround Qabs Lqa Lia.

From Stdlib Require Import List String Ascii Bool Arith DecimalString.

From Stdlib Require Import Sorting.Sorted Sorting.Permutation.

Import ListNotations.

Local Open Scope Q_scope.

(** ** Host primitives *)

Module Js.

(** [Math.round]: the nearest integer, a tie going towards +infinity. *)
Definition Math_round (x : Q) : Q := inject_Z (Qfloor (x + 0.5)).

(** [String.prototype.toLowerCase] on ASCII text. *)
Definition lower_ascii (c : ascii) : ascii :=
  let n := nat_of_ascii c in
  if (65 <=? n)%nat && (n <=? 90)%nat then ascii_of_nat (n + 32) else c.

Fixpoint toLowerCase (s : string) : string :=
  match s with
  | EmptyString => EmptyString
  | String c s' => String (lower_ascii c) (toLowerCase s')
  end.

(** [s.includes(sub)]: [sub] occurs in [s] as a contiguous substring. *)
Fixpoint includes (s sub : string) : bool :=
  String.prefix sub s
  || match s with
     | EmptyString => false
     | String _ s' => includes s' sub
     end.

(** JavaScript truthiness of a possibly missing string: [undefined] and
    the empty string are falsy. *)
Definition truthy (o : option string) : bool :=
  match o with
  | Some EmptyString | None => false
  | Some _ => true
  end.

(** [Array.prototype.sort(cmp)].  The language requires the sort to be
    stable, so for a consistent comparator the outcome does not depend on
    the engine's algorithm; a stable insertion sort computes it.  An
    element goes after its neighbour only when the comparator is
    positive. *)
Fixpoint sort_insert {A} (cmp : A -> A -> Q) (x : A) (l : list A) : list A :=
  match l with
  | [] => [x]
  | y :: l' =>
      if Qlt_le_dec 0 (cmp x y) then y :: sort_insert cmp x l'
      else x :: l
  end.

Fixpoint Array_sort {A} (cmp : A -> A -> Q) (l : list A) : list A :=
  match l with
  | [] => []
  | x :: l' => sort_insert cmp x (Array_sort cmp l')
  end.

End Js.

(** ** Data model *)

Definition LatLng : Type := (Q * Q)%type.

Record PredictionRequest := mkRequest {
  req_location : string;
  req_total_sqft : Q;
  req_bhk : Z;
  req_bath : Z;
  req_balcony : Z;
  req_area_type : string
}.

Record Comparable := mkComparable {
  c_location : string;
  c_bhk : Z;
  c_total_sqft : Q;
  c_price_per_sqft : Q;
  c_distance_km : Q;
  c_latitude : Q;
  c_longitude : Q
}.

Record Coordinates := mkCoordinates {
  latitude : Q;
  longitude : Q
}.

Record ConfidenceInterval := mkCI {
  lower : Q;
  upper : Q
}.

(** [nearby_comparables] is [None] when the field is absent or [null]:
    both renderers guard their loop with a truthiness test. *)
Record PredictionResult := mkResult {
  success : bool;
  location : string;
  coordinates : Coordinates;
  predicted_price_per_sqft : Q;
  total_estimated_price : Q;
  total_estimated_price_formatted : string;
  confidence_interval : ConfidenceInterval;
  nearby_comparables : option (list Comparable)
}.

Definition comparables_of (r : PredictionResult) : list Comparable :=
  match nearby_comparables r with
  | Some l => l
  | None => []
  end.

(** ** Configuration *)

Module CONFIG.

Definition BANGALORE_CENTER : LatLng := (12.9716, 77.5946).

Definition DEFAULT_ZOOM : Z := 11.

End CONFIG.

(** ** The random source *)

(** A computation that draws from [Math.random]: it receives the cursor and
    returns its value with the advanced cursor. *)
Definition Rand (A : Type) : Type := nat -> A * nat.

Definition rret {A} (a : A) : Rand A := fun n => (a, n).

Definition rbind {A B} (m : Rand A) (k : A -> Rand B) : Rand B :=
  fun n => let (a, n') := m n in k a n'.

Declare Scope rand_scope.

Delimit Scope rand_scope with rand.

Notation "x <~ m ;; k" := (rbind m (fun x => k))
  (at level 61, m at next level, right associativity) : rand_scope.

(** ** Location table *)

Definition locationMap : list (string * LatLng) :=
  [ ("Whitefield"%string,        (12.9698, 77.7500));
    ("Koramangala"%string,       (12.9349, 77.6175));
    ("Electronic City"%string,   (12.8399, 77.6770));
    ("HSR Layout"%string,        (12.9122, 77.6414));
    ("Marathahalli"%string,      (12.9591, 77.6971));
    ("Indiranagar"%string,       (12.9719, 77.6412));
    ("Jayanagar"%string,         (12.9250, 77.5820));
    ("Hebbal"%string,            (13.0358, 77.5970));
    ("Sarjapur Road"%string,     (12.9087, 77.6857));
    ("Bellandur"%string,         (12.9261, 77.6798));
    ("JP Nagar"%string,          (12.9064, 77.5857));
    ("Bannerghatta Road"%string, (12.8879, 77.5967)) ].

(** The test of the lookup loop for one table key. *)
Definition key_matches (normalizedLoc key : string) : bool :=
  Js.includes (Js.toLowerCase key) normalizedLoc
  || Js.includes normalizedLoc (Js.toLowerCase key).

(** The [for ... of Object.entries(locationMap)] loop: the coordinates of
    the first key that matches, in table order. *)
Fixpoint lookup_location (normalizedLoc : string)
    (entries : list (string * LatLng)) : option LatLng :=
  match entries with
  | [] => None
  | (key, coords) :: rest =>
      if key_matches normalizedLoc key then Some coords
      else lookup_location normalizedLoc rest
  end.

Section Estimator.

Variable rand : nat -> Q.

Definition Math_random : Rand Q := fun n => (rand n, S n).

Definition getMockCoordinates (location : string) : Rand LatLng :=
  let normalizedLoc := Js.toLowerCase location in
  match lookup_location normalizedLoc locationMap with
  | Some coords => rret coords
  | None =>
      (r1 <~ Math_random ;;
       r2 <~ Math_random ;;
       rret (12.9716 + (r1 - 0.5) * 0.15,
             77.5946 + (r2 - 0.5) * 0.15))%rand
  end.

(** Number formatting is the host's: [toFixed] and the locale-dependent
    [toLocaleString] are taken as given, as is the conversion of a number
    to a string inside a template literal. *)
Variable toFixed : Q -> nat -> string.

Definition locations : list string :=
  [ "Near Location"; "Nearby Area"; "Close By"; "Adjacent" ]%string.

(** The body of [for (let i = 0; i < 4; i++)], run for the [count]
    iterations that remain.  The five draws happen in the order of the
    properties of the object literal. *)
Fixpoint comparables_loop (coords : LatLng) (bhk : Z) (count i : nat)
    (comparables : list Comparable) : Rand (list Comparable) :=
  match count with
  | O => rret comparables
  | S count' =>
      (r1 <~ Math_random ;;
       r2 <~ Math_random ;;
       r3 <~ Math_random ;;
       r4 <~ Math_random ;;
       r5 <~ Math_random ;;
       comparables_loop coords bhk count' (S i)
         (comparables ++
          [ {| c_location := nth i locations EmptyString;
               c_bhk := bhk;
               c_total_sqft := 1000 + Js.Math_round (r1 * 1000);
               c_price_per_sqft := 5000 + Js.Math_round (r2 * 3000);
               c_distance_km := Js.Math_round ((0.5 + r3 * 2) * 10) / 10;
               c_latitude := fst coords + (r4 - 0.5) * 0.02;
               c_longitude := snd coords + (r5 - 0.5) * 0.02 |} ]))%rand
  end.

Definition by_distance (a b : Comparable) : Q :=
  c_distance_km a - c_distance_km b.

Definition generateMockComparables (coords : LatLng) (bhk : Z)
    : Rand (list Comparable) :=
  (comparables <~ comparables_loop coords bhk 4 0 [] ;;
   rret (Js.Array_sort by_distance comparables))%rand.

Definition generateMockPrediction (formData : PredictionRequest)
    : Rand PredictionResult :=
  (mockCoords <~ getMockCoordinates (req_location formData) ;;
   let basePrice := 6500 in
   let bhkMultiplier := 1 + (inject_Z (req_bhk formData) - 2) * 0.15 in
   let sizeMultiplier :=
     if Qlt_le_dec (req_total_sqft formData) 1000 then 1.1
     else if Qlt_le_dec 2000 (req_total_sqft formData) then 0.9
     else 1 in
   r <~ Math_random ;;
   let pricePerSqft :=
     basePrice * bhkMultiplier * sizeMultiplier + (r - 0.5) * 1000 in
   let totalPrice := pricePerSqft * req_total_sqft formData in
   comparables <~ generateMockComparables mockCoords (req_bhk formData) ;;
   rret {| success := true;
           location := req_location formData;
           coordinates := {| latitude := fst mockCoords;
                             longitude := snd mockCoords |};
           predicted_price_per_sqft :=
             Js.Math_round (pricePerSqft * 100) / 100;
           total_estimated_price := Js.Math_round (totalPrice * 100) / 100;
           total_estimated_price_formatted :=
             "₹" ++ toFixed (totalPrice / 100000) 2 ++ " Lakhs";
           confidence_interval :=
             {| lower := Js.Math_round (pricePerSqft * 0.85 * 100) / 100;
                upper := Js.Math_round (pricePerSqft * 1.15 * 100) / 100 |};
           nearby_comparables := Some comparables |})%rand.

End Estimator.

(** ** Application state *)

(** The nodes the script puts under [#comparables-list]: one clickable
    item per comparable (its three interpolated texts and the comparable
    its [onclick] closes over), or the placeholder paragraph. *)
Inductive DomNode :=
| ComparableItem (item_location item_details item_price : string)
                 (onclick : Comparable)
| Paragraph (text : string).

Record Dom := mkDom {
  results_hidden : bool;
  total_price : string;
  price_per_sqft : string;
  ci_lower : string;
  ci_upper : string;
  comparables_list : list DomNode;
  loading_overlay_hidden : bool
}.

(** The markup of a popup, one element per [<div>] the script emits. *)
Inductive Html :=
| Div (className : string) (text : string)
| DivStyled (className style : string) (text : string).

Inductive IconClass :=
| pulsing_marker
| prediction_marker_icon
| comparable_marker_icon.

(** A Leaflet layer object.  Objects live in a heap and are named by their
    stamp (their index in it): the map, the [markers] array and
    [predictionMarker] all hold references to the same objects. *)
Inductive LObject :=
| TileLayer
| Marker (latlng : LatLng) (icon : IconClass) (popup : option (list Html)).

(** The viewport: set directly, or fitted to the bounds of a group of
    layers extended by a padding ratio. *)
Inductive View :=
| ViewAt (center : LatLng) (zoom : Z)
| ViewFit (group : list nat) (pad : Q).

Record LMap := mkLMap {
  view : View;
  layers : list nat;
  open_popup : option nat
}.

Record AppState := mkApp {
  dom : Dom;
  heap : list LObject;
  map : option LMap;
  markers : list nat;
  predictionMarker : option nat;
  rng : nat
}.

Definition set_dom (f : Dom -> Dom) (s : AppState) : AppState :=
  mkApp (f (dom s)) (heap s) (map s) (markers s) (predictionMarker s) (rng s).

Definition set_heap (h : list LObject) (s : AppState) : AppState :=
  mkApp (dom s) h (map s) (markers s) (predictionMarker s) (rng s).

Definition set_map (m : option LMap) (s : AppState) : AppState :=
  mkApp (dom s) (heap s) m (markers s) (predictionMarker s) (rng s).

Definition set_markers (l : list nat) (s : AppState) : AppState :=
  mkApp (dom s) (heap s) (map s) l (predictionMarker s) (rng s).

Definition set_predictionMarker (p : option nat) (s : AppState) : AppState :=
  mkApp (dom s) (heap s) (map s) (markers s) p (rng s).

Definition set_rng (n : nat) (s : AppState) : AppState :=
  mkApp (dom s) (heap s) (map s) (markers s) (predictionMarker s) n.

(** ** Effects: state and exceptions *)

Inductive Exn :=
| TypeError (message : string)
| SyntaxError (message : string)
| Error (message : string).

Inductive Outcome (A : Type) :=
| Returned (a : A) (s : AppState)
| Thrown (e : Exn) (s : AppState).

Arguments Returned {A} a s.

Arguments Thrown {A} e s.

Definition Eff (A : Type) : Type := AppState -> Outcome A.

Definition ret {A} (a : A) : Eff A := fun s => Returned a s.

Definition bind {A B} (m : Eff A) (k : A -> Eff B) : Eff B :=
  fun s =>
    match m s with
    | Returned a s' => k a s'
    | Thrown e s' => Thrown e s'
    end.

Definition throw {A} (e : Exn) : Eff A := fun s => Thrown e s.

Definition gets {A} (f : AppState -> A) : Eff A := fun s => Returned (f s) s.

Definition modify (f : AppState -> AppState) : Eff unit :=
  fun s => Returned tt (f s).

Declare Scope eff_scope.

Delimit Scope eff_scope with eff.

Notation "x <- m ;; k" := (bind m (fun x => k))
  (at level 61, m at next level, right associativity) : eff_scope.

Notation "m ;; k" := (bind m (fun _ => k))
  (at level 61, right associativity) : eff_scope.

(** [try { body } catch (error) { handler } finally { final }]. *)
Definition try_catch_finally {A} (body : Eff A) (handler : Exn -> Eff A)
    (final : Eff unit) : Eff A :=
  fun s =>
    let attempt :=
      match body s with
      | Returned a s' => Returned a s'
      | Thrown e s' => handler e s'
      end in
    match attempt with
    | Returned a s' =>
        match final s' with
        | Returned _ s'' => Returned a s''
        | Thrown e s'' => Thrown e s''
        end
    | Thrown e s' =>
        match final s' with
        | Returned _ s'' => Thrown e s''
        | Thrown e' s'' => Thrown e' s''
        end
    end.

(** [array.forEach(f)]. *)
Fixpoint forEach {A} (l : list A) (f : A -> Eff unit) : Eff unit :=
  match l with
  | [] => ret tt
  | x :: l' => (f x ;; forEach l' f)%eff
  end.

(** ** Leaflet *)

Module L.

(** [L.marker(latlng, {icon})] and [L.tileLayer(...)]: a new object. *)
Definition alloc (o : LObject) : Eff nat :=
  fun s => Returned (List.length (heap s)) (set_heap (heap s ++ [o]) s).

Definition marker (latlng : LatLng) (icon : IconClass) : Eff nat :=
  alloc (Marker latlng icon None).

Definition tileLayer : Eff nat := alloc TileLayer.

(** An operation on the global [map]; calling a method of [null] throws. *)
Definition on_map (f : LMap -> LMap) : Eff unit :=
  fun s =>
    match map s with
    | Some m => Returned tt (set_map (Some (f m)) s)
    | None => Thrown (TypeError "map is null") s
    end.

Definition addTo (layer : nat) : Eff unit :=
  on_map (fun m => mkLMap (view m) (layers m ++ [layer]) (open_popup m)).

(** [map.removeLayer(layer)]: drops the layer and closes its popup; a
    layer that is not on the map is left alone. *)
Definition removeLayer (layer : nat) : Eff unit :=
  on_map (fun m =>
    mkLMap (view m)
           (filter (fun l => negb (Nat.eqb l layer)) (layers m))
           (match open_popup m with
            | Some p => if Nat.eqb p layer then None else Some p
            | None => None
            end)).

Fixpoint update_nth {A} (n : nat) (f : A -> A) (l : list A) : list A :=
  match l, n with
  | [], _ => []
  | x :: l', O => f x :: l'
  | x :: l', S n' => x :: update_nth n' f l'
  end.

Definition bindPopup (layer : nat) (content : list Html) : Eff unit :=
  modify (fun s =>
    set_heap (update_nth layer
                (fun o => match o with
                          | Marker ll ic _ => Marker ll ic (Some content)
                          | TileLayer => TileLayer
                          end) (heap s)) s).

(** [marker.openPopup()] shows the popup of a marker that is on a map. *)
Definition openPopup (layer : nat) : Eff unit :=
  modify (fun s =>
    match map s with
    | Some m =>
        if existsb (Nat.eqb layer) (layers m)
        then set_map (Some (mkLMap (view m) (layers m) (Some layer))) s
        else s
    | None => s
    end).

Definition setView (center : LatLng) (zoom : Z) : Eff unit :=
  on_map (fun m => mkLMap (ViewAt center zoom) (layers m) (open_popup m)).

Definition fitBounds (group : list nat) (pad : Q) : Eff unit :=
  on_map (fun m => mkLMap (ViewFit group pad) (layers m) (open_popup m)).

Definition getLatLng (layer : nat) : Eff LatLng :=
  fun s =>
    match nth_error (heap s) layer with
    | Some (Marker ll _ _) => Returned ll s
    | _ => Thrown (TypeError "getLatLng is not a function") s
    end.

End L.

(** ** The application *)

Record PopupData := mkPopupData {
  title : string;
  details : option string;
  price : option string;
  pricePerSqft : option string;
  distance : option string
}.

Definition when_truthy (o : option string) (f : string -> list Html)
    : list Html :=
  if Js.truthy o then
    match o with Some v => f v | None => [] end
  else [].

Definition createPopupContent (data : PopupData) : list Html :=
  [Div "popup-title" (title data)]
  ++ when_truthy (details data) (fun v => [Div "popup-details" v])
  ++ when_truthy (price data) (fun v => [Div "popup-price" v])
  ++ when_truthy (pricePerSqft data) (fun v => [Div "popup-details" v])
  ++ when_truthy (distance data)
       (fun v => [DivStyled "popup-details" "color: var(--text-muted);" v]).

(** What the backend call came to.  The body of a 2xx response, when it
    parses, has the shape of a [PredictionResult]; the body of any other
    response, when it parses, may carry a [detail] string.  [None] is a
    body that [response.json()] rejects. *)
Inductive FetchOutcome :=
| NetworkError
| Status2xx (body : option PredictionResult)
| StatusOther (body : option (option string)).

Section App.

Variable rand : nat -> Q.

Variable toFixed : Q -> nat -> string.

Variable toLocaleString : Q -> string.

Variable toString : Q -> string.

Definition Math_random_eff {A} (m : Rand A) : Eff A :=
  fun s => let (a, n) := m (rng s) in Returned a (set_rng n s).

Definition addCenterMarker : Eff unit :=
  (m <- L.marker CONFIG.BANGALORE_CENTER pulsing_marker ;;
   L.addTo m ;;
   L.bindPopup m
     (createPopupContent
        {| title := "Bangalore City Center";
           details :=
             Some "Enter property details to get a price prediction"%string;
           price := None; pricePerSqft := None; distance := None |}) ;;
   modify (set_predictionMarker (Some m)))%eff.

Definition initMap : Eff unit :=
  (modify (set_map (Some {| view := ViewAt CONFIG.BANGALORE_CENTER
                                          CONFIG.DEFAULT_ZOOM;
                            layers := [];
                            open_popup := None |})) ;;
   t <- L.tileLayer ;;
   L.addTo t ;;
   addCenterMarker)%eff.

Definition showLoading (show : bool) : Eff unit :=
  modify (set_dom (fun d =>
    mkDom (results_hidden d) (total_price d) (price_per_sqft d) (ci_lower d)
          (ci_upper d) (comparables_list d) (negb show))).

Definition comparable_item (comp : Comparable) : DomNode :=
  ComparableItem
    (c_location comp)
    (toString (inject_Z (c_bhk comp)) ++ " BHK • "
     ++ toLocaleString (c_total_sqft comp) ++ " sq.ft • "
     ++ toString (c_distance_km comp) ++ " km")
    ("₹" ++ toLocaleString (c_price_per_sqft comp))
    comp.

Definition displayResults (result : PredictionResult) : Eff unit :=
  modify (set_dom (fun d =>
    {| results_hidden := false;
       total_price := total_estimated_price_formatted result;
       price_per_sqft :=
         "₹" ++ toLocaleString (predicted_price_per_sqft result)
         ++ " per sq.ft";
       ci_lower :=
         "₹" ++ toLocaleString (lower (confidence_interval result));
       ci_upper :=
         "₹" ++ toLocaleString (upper (confidence_interval result));
       comparables_list :=
         match nearby_comparables result with
         | Some (comp :: rest) => List.map comparable_item (comp :: rest)
         | _ => [Paragraph "No comparable properties found"]
         end;
       loading_overlay_hidden := loading_overlay_hidden d |})).

Definition clearMarkers : Eff unit :=
  (old <- gets markers ;;
   forEach old L.removeLayer ;;
   modify (set_markers []) ;;
   p <- gets predictionMarker ;;
   match p with
   | Some m => (L.removeLayer m ;; modify (set_predictionMarker None))
   | None => ret tt
   end)%eff.

Definition add_comparable_marker (comp : Comparable) : Eff unit :=
  (m <- L.marker (c_latitude comp, c_longitude comp) comparable_marker_icon ;;
   L.addTo m ;;
   L.bindPopup m
     (createPopupContent
        {| title := c_location comp;
           details := Some (toString (inject_Z (c_bhk comp)) ++ " BHK • "
                            ++ toLocaleString (c_total_sqft comp)
                            ++ " sq.ft")%string;
           price := None;
           pricePerSqft := Some ("₹" ++ toLocaleString (c_price_per_sqft comp)
                                 ++ "/sq.ft")%string;
           distance := Some (toString (c_distance_km comp)
                             ++ " km away")%string |}) ;;
   modify (fun s => set_markers (markers s ++ [m]) s))%eff.

Definition updateMap (result : PredictionResult) : Eff unit :=
  (clearMarkers ;;
   let coords := (latitude (coordinates result),
                  longitude (coordinates result)) in
   m <- L.marker coords prediction_marker_icon ;;
   L.addTo m ;;
   L.bindPopup m
     (createPopupContent
        {| title := location result;
           details := None;
           price := Some (total_estimated_price_formatted result);
           pricePerSqft :=
             Some ("₹" ++ toLocaleString (predicted_price_per_sqft result)
                   ++ "/sq.ft")%string;
           distance := None |}) ;;
   L.openPopup m ;;
   modify (set_predictionMarker (Some m)) ;;
   match nearby_comparables result with
   | Some comps => forEach comps add_comparable_marker
   | None => ret tt
   end ;;
   ms <- gets markers ;;
   match ms with
   | _ :: _ => L.fitBounds (m :: ms) 0.2
   | [] => L.setView coords 14
   end)%eff.

Definition focusComparable (comp : Comparable) : Eff unit :=
  (L.setView (c_latitude comp, c_longitude comp) 15 ;;
   ms <- gets markers ;;
   forEach ms (fun marker =>
     markerLatLng <- L.getLatLng marker ;;
     if Qlt_le_dec (Qabs (fst markerLatLng - c_latitude comp)) 0.0001 then
       if Qlt_le_dec (Qabs (snd markerLatLng - c_longitude comp)) 0.0001
       then L.openPopup marker
       else ret tt
     else ret tt))%eff.

(** [await fetch(...)] followed by the status test and [response.json()]:
    what the [try] block does before it has a result in hand. *)
Definition fetch_prediction (outcome : FetchOutcome)
    : Eff PredictionResult :=
  match outcome with
  | NetworkError => throw (TypeError "Failed to fetch")
  | StatusOther None => throw (SyntaxError "Unexpected token")
  | StatusOther (Some detail) =>
      throw (Error (if Js.truthy detail
                    then match detail with Some d => d | None => "" end
                    else "Prediction failed"))
  | Status2xx None => throw (SyntaxError "Unexpected token")
  | Status2xx (Some result) => ret result
  end.

Definition predictPrice (formData : PredictionRequest)
    (outcome : FetchOutcome) : Eff unit :=
  (showLoading true ;;
   try_catch_finally
     (result <- fetch_prediction outcome ;;
      displayResults result ;;
      updateMap result)
     (fun error =>
        mockResult <-
          Math_random_eff (generateMockPrediction rand toFixed formData) ;;
        displayResults mockResult ;;
        updateMap mockResult)
     (showLoading false))%eff.

End App.

(** The page before the script runs: the results section and the loading
    overlay are hidden, no map exists. *)
Definition page_loaded : AppState :=
  {| dom := {| results_hidden := true; total_price := "";
               price_per_sqft := ""; ci_lower := ""; ci_upper := "";
               comparables_list := []; loading_overlay_hidden := true |};
     heap := []; map := None; markers := []; predictionMarker := None;
     rng := 0 |}.

(** ** Locations autocomplete *)

(** What [GET /api/locations] came to.  The body of a 2xx response, when it
    parses, is an array of objects with a [name] string, given here by the
    names in order; [None] is a body that [response.json()] rejects. *)
Inductive LocationsOutcome :=
| LocationsNetworkError
| LocationsStatus2xx (body : option (list string))
| LocationsStatusOther.

Definition defaultLocations : list string :=
  [ "Whitefield"; "Koramangala"; "Electronic City"; "HSR Layout";
    "Marathahalli"; "Indiranagar"; "Jayanagar"; "Hebbal";
    "Sarjapur Road"; "Bellandur"; "JP Nagar"; "Bannerghatta Road" ]%string.

(** The [try] block up to the parsed list: [None] when it throws. *)
Definition fetch_locations (outcome : LocationsOutcome)
    : option (list string) :=
  match outcome with
  | LocationsNetworkError => None
  | LocationsStatusOther => None
  | LocationsStatus2xx body => body
  end.

(** [names.forEach(name => datalist.appendChild(option(name)))], on the
    option values of the datalist. *)
Definition append_options (names datalist : list string) : list string :=
  fold_left (fun options name => options ++ [name]) names datalist.

(** [loadLocations], as a function of the backend's answer, on the option
    values of [#locations-list]. *)
Definition loadLocations (outcome : LocationsOutcome)
    (datalist : list string) : list string :=
  match fetch_locations outcome with
  | Some locations => append_options locations datalist
  | None => append_options defaultLocations datalist
  end.

(** * Vocabulary of the properties *)

(** ** Numbers and places *)

(** Rounding to two decimals, as the estimator writes it inline:
    [Math.round(x * 100) / 100]. *)
Definition round2 (x : Q) : Q := Js.Math_round (x * 100) / 100.

Definition distance_le (a b : Comparable) : Prop :=
  c_distance_km a <= c_distance_km b.

(** First match in table order, in the words of the specification: the
    first entry whose lower-cased key contains the lower-cased location or
    is contained in it. *)
Definition first_match (location : string) : option (string * LatLng) :=
  find (fun entry =>
          Js.includes (Js.toLowerCase (fst entry)) (Js.toLowerCase location)
          || Js.includes (Js.toLowerCase location) (Js.toLowerCase (fst entry)))
       locationMap.

(** The location matches no entry of the table. *)
Definition no_match (location : string) : bool :=
  forallb (fun entry =>
             negb (key_matches (Js.toLowerCase location) (fst entry)))
          locationMap.

Definition Whitefield : LatLng := (12.9698, 77.7500).

(** The size multiplier, in the words of the specification. *)
Definition is_sizeMultiplier (total_sqft m : Q) : Prop :=
  (total_sqft < 1000 /\ m = 1.1)
  \/ (2000 < total_sqft /\ m = 0.9)
  \/ (1000 <= total_sqft <= 2000 /\ m = 1).

(** What every generated comparable satisfies, for the coordinates and
    the bedroom count it was generated from. *)
Definition comparable_ok (coords : LatLng) (bhk : Z) (c : Comparable) : Prop :=
  c_bhk c = bhk
  /\ 1000 <= c_total_sqft c <= 2000
  /\ 5000 <= c_price_per_sqft c <= 8000
  /\ 0.5 <= c_distance_km c <= 2.5
  /\ (exists k : Z, c_distance_km c == inject_Z k / 10)
  /\ Qabs (c_latitude c - fst coords) <= 0.01
  /\ Qabs (c_longitude c - snd coords) <= 0.01.

(** The local [sizeMultiplier] and [pricePerSqft] of
    [generateMockPrediction], as functions of the request and of the number
    drawn for the jitter. *)
Definition sizeMultiplier_of (formData : PredictionRequest) : Q :=
  if Qlt_le_dec (req_total_sqft formData) 1000 then 1.1
  else if Qlt_le_dec 2000 (req_total_sqft formData) then 0.9
  else 1.

Definition pricePerSqft_of (formData : PredictionRequest) (r : Q) : Q :=
  6500 * (1 + (inject_Z (req_bhk formData) - 2) * 0.15)
  * sizeMultiplier_of formData + (r - 0.5) * 1000.

Section EstimatorTerms.

Variable rand : nat -> Q.
Variable toFixed : Q -> nat -> string.

(** The cursor when the jitter is drawn: after the location is resolved. *)
Definition jitter_cursor (formData : PredictionRequest) (n : nat) : nat :=
  snd (getMockCoordinates rand (req_location formData) n).

Definition mockCoords_of (formData : PredictionRequest) (n : nat) : LatLng :=
  fst (getMockCoordinates rand (req_location formData) n).

Definition estimate (formData : PredictionRequest) (n : nat)
    : PredictionResult :=
  fst (generateMockPrediction rand toFixed formData n).

End EstimatorTerms.

(** ** The map and the page *)

(** The markers the map shows: position and icon of every layer on the map
    that is a marker, in the order they were added. *)
Definition marker_of (h : list LObject) (l : nat)
    : list (LatLng * IconClass) :=
  match nth_error h l with
  | Some (Marker ll ic _) => [(ll, ic)]
  | _ => []
  end.

Definition markers_on_map (s : AppState) : list (LatLng * IconClass) :=
  match map s with
  | Some m => flat_map (marker_of (heap s)) (layers m)
  | None => []
  end.

Definition is_tracked (s : AppState) (l : nat) : bool :=
  existsb (Nat.eqb l) (markers s)
  || match predictionMarker s with
     | Some p => Nat.eqb l p
     | None => false
     end.

(** The invariant of the map renderer: the map exists, every layer on it
    is an allocated object, and every marker on it is referenced by
    [markers] or by [predictionMarker]. *)
Definition tracked (s : AppState) : bool :=
  match map s with
  | Some m =>
      forallb (fun l =>
                 (l <? List.length (heap s))%nat
                 && (match marker_of (heap s) l with
                     | [] => true
                     | _ => is_tracked s l
                     end))
              (layers m)
  | None => false
  end.

(** What [clearMarkers] leaves of the map. *)
Definition remove_layer (layer : nat) (m : LMap) : LMap :=
  mkLMap (view m)
         (filter (fun l => negb (Nat.eqb l layer)) (layers m))
         (match open_popup m with
          | Some p => if Nat.eqb p layer then None else Some p
          | None => None
          end).

Definition remove_layers (ls : list nat) (m : LMap) : LMap :=
  fold_left (fun m l => remove_layer l m) ls m.

(** The layers [clearMarkers] takes off the map. *)
Definition old_markers (s : AppState) : list nat :=
  markers s ++ match predictionMarker s with
               | Some p => [p]
               | None => []
               end.

Definition cleared (s : AppState) (m : LMap) : AppState :=
  mkApp (dom s) (heap s) (Some (remove_layers (old_markers s) m)) [] None
        (rng s).

Definition final_state {A} (o : Outcome A) : AppState :=
  match o with
  | Returned _ s => s
  | Thrown _ s => s
  end.

(** The three ways the backend call fails: the request does not go
    through, the status is not 2xx, or the body does not parse. *)
Definition backend_failed (outcome : FetchOutcome) : bool :=
  match outcome with
  | NetworkError => true
  | StatusOther _ => true
  | Status2xx None => true
  | Status2xx (Some _) => false
  end.

(** The markers the map shows once a result is on it. *)
Definition shown_markers (result : PredictionResult)
    : list (LatLng * IconClass) :=
  ((latitude (coordinates result), longitude (coordinates result)),
   prediction_marker_icon)
  :: List.map (fun c => ((c_latitude c, c_longitude c),
                         comparable_marker_icon))
              (comparables_of result).

Definition icon_eqb (a b : IconClass) : bool :=
  match a, b with
  | pulsing_marker, pulsing_marker
  | prediction_marker_icon, prediction_marker_icon
  | comparable_marker_icon, comparable_marker_icon => true
  | _, _ => false
  end.

(** How many of the shown markers carry a given icon. *)
Definition count_icon (icon : IconClass) (l : list (LatLng * IconClass))
    : nat :=
  List.length (filter (fun mk => icon_eqb (snd mk) icon) l).

(** Two states with the same layers on the map and the same references to
    them. *)
Definition same_layers (s s' : AppState) : Prop :=
  heap s' = heap s
  /\ markers s' = markers s
  /\ predictionMarker s' = predictionMarker s
  /\ option_map layers (map s') = option_map layers (map s).

Section RendererTerms.

Variable rand : nat -> Q.
Variable toFixed : Q -> nat -> string.
Variable toLocaleString : Q -> string.
Variable toString : Q -> string.

Abbreviation displayResults' := (displayResults toLocaleString toString).
Abbreviation updateMap' := (updateMap toLocaleString toString).

(** The marker object [add_comparable_marker] leaves in the heap. *)
Definition comparable_marker (comp : Comparable) : LObject :=
  Marker (c_latitude comp, c_longitude comp) comparable_marker_icon
    (Some (createPopupContent
       {| title := c_location comp;
          details := Some (toString (inject_Z (c_bhk comp)) ++ " BHK • "
                           ++ toLocaleString (c_total_sqft comp)
                           ++ " sq.ft")%string;
          price := None;
          pricePerSqft := Some ("₹" ++ toLocaleString (c_price_per_sqft comp)
                                ++ "/sq.ft")%string;
          distance := Some (toString (c_distance_km comp)
                            ++ " km away")%string |})).

(** The marker object [updateMap] leaves in the heap for the prediction. *)
Definition prediction_marker (result : PredictionResult) : LObject :=
  Marker (latitude (coordinates result), longitude (coordinates result))
    prediction_marker_icon
    (Some (createPopupContent
       {| title := location result;
          details := None;
          price := Some (total_estimated_price_formatted result);
          pricePerSqft :=
            Some ("₹" ++ toLocaleString (predicted_price_per_sqft result)
                  ++ "/sq.ft")%string;
          distance := None |})).

(** The state the loop over the comparables of [updateMap] ends in. *)
Definition with_comparables (comps : list Comparable) (s : AppState)
    (m : LMap) : AppState :=
  let fresh := seq (List.length (heap s)) (List.length comps) in
  mkApp (dom s)
        (heap s ++ List.map comparable_marker comps)
        (Some (mkLMap (view m) (layers m ++ fresh) (open_popup m)))
        (markers s ++ fresh)
        (predictionMarker s)
        (rng s).

(** The state [updateMap] ends in. *)
Definition updated (result : PredictionResult) (s : AppState) (m : LMap)
    : AppState :=
  let p := List.length (heap s) in
  let coords := (latitude (coordinates result),
                 longitude (coordinates result)) in
  let fresh := seq (S p) (List.length (comparables_of result)) in
  mkApp (dom s)
        (heap s ++ prediction_marker result
                   :: List.map comparable_marker (comparables_of result))
        (Some (mkLMap (match fresh with
                       | _ :: _ => ViewFit (p :: fresh) 0.2
                       | [] => ViewAt coords 14
                       end)
                      (layers (remove_layers (old_markers s) m) ++ p :: fresh)
                      (Some p)))
        fresh
        (Some p)
        (rng s).

(** The display fields show a result. *)
Definition displays (d : Dom) (result : PredictionResult) : Prop :=
  results_hidden d = false
  /\ total_price d = total_estimated_price_formatted result
  /\ price_per_sqft d =
     ("₹" ++ toLocaleString (predicted_price_per_sqft result)
      ++ " per sq.ft")%string
  /\ ci_lower d =
     ("₹" ++ toLocaleString (lower (confidence_interval result)))%string
  /\ ci_upper d =
     ("₹" ++ toLocaleString (upper (confidence_interval result)))%string
  /\ comparables_list d =
     match comparables_of result with
     | [] => [Paragraph "No comparable properties found"]
     | comps => List.map (comparable_item toLocaleString toString) comps
     end.

(** The straight-line sequence [predictPrice] comes down to for a result
    in hand: show the overlay, render, update the map, hide the overlay. *)
Definition render_sequence (result : PredictionResult) : Eff unit :=
  (showLoading true ;;
   displayResults' result ;;
   updateMap' result ;;
   showLoading false)%eff.

(** The fallback of [predictPrice]: draw a mock result, then render it. *)
Definition fallback_sequence (formData : PredictionRequest) : Eff unit :=
  (showLoading true ;;
   mockResult <-
     Math_random_eff (generateMockPrediction rand toFixed formData) ;;
   displayResults' mockResult ;;
   updateMap' mockResult ;;
   showLoading false)%eff.

(** The states of a page session: the script initialises the map once,
    then serves form submissions and clicks on comparables. *)
Inductive reachable : AppState -> Prop :=
| reach_init :
    reachable (final_state (initMap page_loaded))
| reach_submit (s : AppState) (formData : PredictionRequest)
    (outcome : FetchOutcome) :
    reachable s ->
    reachable (final_state
                 (predictPrice rand toFixed toLocaleString toString
                    formData outcome s))
| reach_click (s : AppState) (comp : Comparable) :
    reachable s ->
    reachable (final_state (focusComparable comp s)).

End RendererTerms.

(** ** Clicks on comparables *)

(** A marker of the heap lies within the tolerance of [focusComparable]
    of a comparable's position. *)
Definition marker_near (h : list LObject) (comp : Comparable) (id : nat)
    : bool :=
  match nth_error h id with
  | Some (Marker ll _ _) =>
      if Qlt_le_dec (Qabs (fst ll - c_latitude comp)) 0.0001 then
        if Qlt_le_dec (Qabs (snd ll - c_longitude comp)) 0.0001
        then true else false
      else false
  | _ => false
  end.

(** The popup that is open after the loop of [focusComparable]: the one
    of the last marker within tolerance, or the one open before. *)
Definition focus_popup (h : list LObject) (comp : Comparable)
    (ms : list nat) (open : option nat) : option nat :=
  fold_left (fun open id => if marker_near h comp id then Some id else open)
            ms open.

Definition is_marker (h : list LObject) (id : nat) : bool :=
  match nth_error h id with
  | Some (Marker _ _ _) => true
  | _ => false
  end.

(** Every reference in [markers] is a marker object that is on the map. *)
Definition markers_valid (s : AppState) : bool :=
  match map s with
  | Some m =>
      forallb (fun id => is_marker (heap s) id
                         && existsb (Nat.eqb id) (layers m))
              (markers s)
  | None => false
  end.

(** The shown markers are one primary marker (centre or prediction)
    followed by comparable markers only. *)
Definition one_primary_marker (l : list (LatLng * IconClass)) : bool :=
  match l with
  | (_, icon) :: rest =>
      negb (icon_eqb icon comparable_marker_icon)
      && forallb (fun mk => icon_eqb (snd mk) comparable_marker_icon) rest
  | [] => false
  end.

(** ** Popups *)

(** The optional fields of the popup data that are shown. *)
Definition shown_fields (data : PopupData) : nat :=
  List.length
    (filter Js.truthy
       [details data; price data; pricePerSqft data; distance data]).

(** The popup data with every empty optional field taken out. *)
Definition without_empty_fields (data : PopupData) : PopupData :=
  let clean o := if Js.truthy o then o else None in
  {| title := title data;
     details := clean (details data);
     price := clean (price data);
     pricePerSqft := clean (pricePerSqft data);
     distance := clean (distance data) |}.

(** ** Sample inputs *)

Definition sample_rand (n : nat) : Q := (Z.of_nat (n mod 7) + 1) # 9.

Definition sample_format (x : Q) : string :=
  NilZero.string_of_int (Z.to_int (Qfloor x)).

Definition sample_toFixed (x : Q) (digits : nat) : string := sample_format x.

Definition koramangala_request : PredictionRequest :=
  mkRequest "Koramangala" 1500 3 2 1 "Super built-up".

Definition unknown_request : PredictionRequest :=
  mkRequest "Mars" 850 2 1 0 "Plot Area".

Definition initialised : AppState := final_state (initMap page_loaded).

Definition sample_result : PredictionResult :=
  estimate sample_rand sample_toFixed koramangala_request 0.

(** The page after one submission that the backend did not answer. *)
Definition after_submit : AppState :=
  final_state
    (predictPrice sample_rand sample_toFixed sample_format sample_format
       koramangala_request NetworkError initialised).

(** A comparable of the sample result, and one far from every marker. *)
Definition listed_comparable : Comparable :=
  hd (mkComparable "" 0 0 0 0 0 0) (comparables_of sample_result).

Definition far_comparable : Comparable :=
  mkComparable "Elsewhere" 2 1200 6000 9.9 0 0.

(** ** Tactics *)

(** Linear arithmetic after turning the divisions by 10 and 100 into
    multiplications. *)
Ltac qlra :=
  unfold Qdiv in *;
  change (/ 100) with (1 # 100) in *;
  change (/ 10) with (1 # 10) in *;
  lra.

(** Runs the straight-line part of an effectful computation. *)
Ltac run_eff :=
  cbv beta iota zeta delta
    [bind ret modify gets L.marker L.alloc L.addTo L.on_map L.bindPopup
     L.openPopup L.setView L.fitBounds L.removeLayer
     dom heap map markers predictionMarker rng
     set_dom set_heap set_map set_markers set_predictionMarker set_rng
     view layers open_popup].

(** Runs the prediction client up to its calls of [updateMap]. *)
Ltac run_client :=
  cbv beta iota zeta delta
    [predictPrice bind ret modify gets throw try_catch_finally showLoading
     displayResults fetch_prediction Math_random_eff
     set_dom set_rng dom heap map markers predictionMarker rng].

(** * Properties *)

(** ** Rounding *)

Lemma Math_round_le (x y : Q) : x <= y -> Js.Math_round x <= Js.Math_round y.
Proof.
  intros H. unfold Js.Math_round. rewrite <- Zle_Qle.
  apply Qfloor_resp_le. lra.
Qed.

Lemma Math_round_upper (x : Q) : Js.Math_round x <= x + 0.5.
Proof. unfold Js.Math_round. apply Qfloor_le. Qed.

Lemma Math_round_lower (x : Q) : x - 0.5 < Js.Math_round x.
Proof.
  unfold Js.Math_round.
  pose proof (Qlt_floor (x + 0.5)) as H.
  rewrite inject_Z_plus in H. change (inject_Z 1) with 1 in H. lra.
Qed.

Lemma Math_round_Z (z : Z) : Js.Math_round (inject_Z z) == inject_Z z.
Proof.
  pose proof (Math_round_upper (inject_Z z)) as Hu.
  pose proof (Math_round_lower (inject_Z z)) as Hl.
  unfold Js.Math_round in *.
  set (k := Qfloor (inject_Z z + 0.5)) in *.
  assert (Hk : (k <= z)%Z).
  { apply Z.lt_succ_r. rewrite Zlt_Qlt. unfold Z.succ.
    rewrite inject_Z_plus. change (inject_Z 1) with 1. lra. }
  assert (Hk' : (z <= k)%Z).
  { apply Z.lt_succ_r. rewrite Zlt_Qlt. unfold Z.succ.
    rewrite inject_Z_plus. change (inject_Z 1) with 1. lra. }
  assert (Hkz : k = z) by lia. rewrite Hkz. reflexivity.
Qed.

(** A value in [[a, b)] between two integers rounds into [[a, b]]. *)
Lemma Math_round_range (a b : Z) (x : Q) :
  inject_Z a <= x -> x < inject_Z b ->
  inject_Z a <= Js.Math_round x <= inject_Z b.
Proof.
  intros Ha Hb. split.
  - rewrite <- (Math_round_Z a). now apply Math_round_le.
  - rewrite <- (Math_round_Z b). apply Math_round_le. lra.
Qed.

Lemma round2_le (x y : Q) : x <= y -> round2 x <= round2 y.
Proof.
  intros H. unfold round2.
  assert (Js.Math_round (x * 100) <= Js.Math_round (y * 100))
    by (apply Math_round_le; lra).
  qlra.
Qed.

Lemma round2_error (x : Q) : - 0.005 < round2 x - x <= 0.005.
Proof.
  unfold round2.
  pose proof (Math_round_upper (x * 100)).
  pose proof (Math_round_lower (x * 100)).
  qlra.
Qed.

(** ** Sorting *)

Lemma sort_insert_perm {A} (cmp : A -> A -> Q) (x : A) (l : list A) :
  Permutation (x :: l) (Js.sort_insert cmp x l).
Proof.
  induction l as [|y l IH]; cbn.
  - apply Permutation_refl.
  - destruct (Qlt_le_dec 0 (cmp x y)).
    + apply perm_trans with (y :: x :: l).
      * apply perm_swap.
      * now apply perm_skip.
    + apply Permutation_refl.
Qed.

Lemma Array_sort_perm {A} (cmp : A -> A -> Q) (l : list A) :
  Permutation l (Js.Array_sort cmp l).
Proof.
  induction l as [|x l IH]; cbn.
  - apply perm_nil.
  - apply perm_trans with (x :: Js.Array_sort cmp l).
    + now apply perm_skip.
    + apply sort_insert_perm.
Qed.

Lemma sort_insert_HdRel (a x : Comparable) (l : list Comparable) :
  distance_le a x -> HdRel distance_le a l ->
  HdRel distance_le a (Js.sort_insert by_distance x l).
Proof.
  intros Hax Hal. destruct l as [|y l]; cbn.
  - now constructor.
  - destruct (Qlt_le_dec 0 (by_distance x y)); constructor.
    + now inversion Hal.
    + exact Hax.
Qed.

Lemma sort_insert_sorted (x : Comparable) (l : list Comparable) :
  Sorted distance_le l -> Sorted distance_le (Js.sort_insert by_distance x l).
Proof.
  induction l as [|y l IH]; intros Hs; cbn.
  - repeat constructor.
  - inversion Hs as [|? ? Hl Hy]; subst.
    destruct (Qlt_le_dec 0 (by_distance x y)) as [Hgt | Hle].
    + constructor.
      * now apply IH.
      * apply sort_insert_HdRel; [|assumption].
        unfold distance_le, by_distance in *. lra.
    + constructor; [assumption|].
      constructor. unfold distance_le, by_distance in *. lra.
Qed.

Lemma Array_sort_sorted (l : list Comparable) :
  Sorted distance_le (Js.Array_sort by_distance l).
Proof.
  induction l as [|x l IH]; cbn.
  - constructor.
  - now apply sort_insert_sorted.
Qed.

(** ** Location resolution *)

Lemma lower_ascii_idem (c : ascii) :
  Js.lower_ascii (Js.lower_ascii c) = Js.lower_ascii c.
Proof. destruct c as [[] [] [] [] [] [] [] []]; reflexivity. Qed.

Lemma toLowerCase_idem (s : string) :
  Js.toLowerCase (Js.toLowerCase s) = Js.toLowerCase s.
Proof.
  induction s as [|c s IH]; cbn; [reflexivity|].
  now rewrite lower_ascii_idem, IH.
Qed.

Lemma prefix_empty (s : string) : String.prefix EmptyString s = true.
Proof. destruct s; reflexivity. Qed.

(** Every string contains the empty string. *)
Lemma includes_empty (s : string) : Js.includes s EmptyString = true.
Proof. destruct s; cbn; now rewrite ?prefix_empty. Qed.

Lemma lookup_location_find (normalizedLoc : string)
    (entries : list (string * LatLng)) :
  lookup_location normalizedLoc entries =
  option_map snd
    (find (fun entry => key_matches normalizedLoc (fst entry)) entries).
Proof.
  induction entries as [|[key coords] rest IH]; cbn; [reflexivity|].
  destruct (key_matches normalizedLoc key); [reflexivity | exact IH].
Qed.

Lemma lookup_location_none (normalizedLoc : string)
    (entries : list (string * LatLng)) :
  forallb (fun entry => negb (key_matches normalizedLoc (fst entry)))
          entries = true ->
  lookup_location normalizedLoc entries = None.
Proof.
  induction entries as [|[key coords] rest IH]; cbn; [reflexivity|].
  destruct (key_matches normalizedLoc key); cbn; [discriminate | exact IH].
Qed.

(** ** The mock estimator *)

Section EstimatorFacts.

Variable rand : nat -> Q.

Variable toFixed : Q -> nat -> string.

(** [Math.random] returns a number in [[0, 1)]. *)
Hypothesis rand_range : forall n, 0 <= rand n < 1.

Lemma estimate_fields (formData : PredictionRequest) (n : nat) :
  let p := pricePerSqft_of formData (rand (jitter_cursor rand formData n)) in
  let mc := mockCoords_of rand formData n in
  let r := estimate rand toFixed formData n in
  success r = true
  /\ location r = req_location formData
  /\ coordinates r = {| latitude := fst mc; longitude := snd mc |}
  /\ predicted_price_per_sqft r = round2 p
  /\ total_estimated_price r = round2 (p * req_total_sqft formData)
  /\ lower (confidence_interval r) = round2 (p * 0.85)
  /\ upper (confidence_interval r) = round2 (p * 1.15)
  /\ nearby_comparables r =
       Some (fst (generateMockComparables rand mc (req_bhk formData)
                    (S (jitter_cursor rand formData n)))).
Proof.
  unfold estimate, jitter_cursor, mockCoords_of, generateMockPrediction,
    rbind.
  destruct (getMockCoordinates rand (req_location formData) n) as [mc k].
  cbn [fst snd Math_random].
  destruct (generateMockComparables rand mc (req_bhk formData) (S k))
    as [comps k'].
  cbn. repeat split.
Qed.

Lemma jitter_range (r : Q) : 0 <= r < 1 -> -500 <= (r - 0.5) * 1000 < 500.
Proof. intros [H0 H1]. split; lra. Qed.

Lemma sizeMultiplier_cases (formData : PredictionRequest) :
  sizeMultiplier_of formData = 1.1
  \/ sizeMultiplier_of formData = 0.9
  \/ sizeMultiplier_of formData = 1.
Proof.
  unfold sizeMultiplier_of.
  destruct (Qlt_le_dec _ _); [now left|].
  destruct (Qlt_le_dec _ _); [right; now left | right; now right].
Qed.

(** With at least zero bedrooms the unrounded price is positive. *)
Lemma pricePerSqft_pos (formData : PredictionRequest) (r : Q) :
  (0 <= req_bhk formData)%Z -> 0 <= r < 1 ->
  3595 <= pricePerSqft_of formData r.
Proof.
  intros Hb [Hr0 Hr1]. unfold pricePerSqft_of.
  assert (Hq : 0 <= inject_Z (req_bhk formData)).
  { change 0 with (inject_Z 0). now rewrite <- Zle_Qle. }
  destruct (sizeMultiplier_cases formData) as [-> | [-> | ->]]; lra.
Qed.

Lemma comparable_ok_generated (coords : LatLng) (bhk : Z) (name : string)
    (r1 r2 r3 r4 r5 : Q) :
  0 <= r1 < 1 -> 0 <= r2 < 1 -> 0 <= r3 < 1 -> 0 <= r4 < 1 -> 0 <= r5 < 1 ->
  comparable_ok coords bhk
    {| c_location := name;
       c_bhk := bhk;
       c_total_sqft := 1000 + Js.Math_round (r1 * 1000);
       c_price_per_sqft := 5000 + Js.Math_round (r2 * 3000);
       c_distance_km := Js.Math_round ((0.5 + r3 * 2) * 10) / 10;
       c_latitude := fst coords + (r4 - 0.5) * 0.02;
       c_longitude := snd coords + (r5 - 0.5) * 0.02 |}.
Proof.
  intros H1 H2 H3 H4 H5. unfold comparable_ok.
  cbn [c_bhk c_total_sqft c_price_per_sqft c_distance_km c_latitude
       c_longitude].
  pose proof (Math_round_range 0 1000 (r1 * 1000)) as B1.
  pose proof (Math_round_range 0 3000 (r2 * 3000)) as B2.
  pose proof (Math_round_range 5 25 ((0.5 + r3 * 2) * 10)) as B3.
  change (inject_Z 0) with 0 in *. change (inject_Z 1000) with 1000 in *.
  change (inject_Z 3000) with 3000 in *. change (inject_Z 5) with 5 in *.
  change (inject_Z 25) with 25 in *.
  assert (0 <= Js.Math_round (r1 * 1000) <= 1000) by (apply B1; lra).
  assert (0 <= Js.Math_round (r2 * 3000) <= 3000) by (apply B2; lra).
  assert (5 <= Js.Math_round ((0.5 + r3 * 2) * 10) <= 25) by (apply B3; lra).
  split; [reflexivity|].
  split; [lra|]. split; [lra|]. split; [qlra|].
  split; [|split].
  - exists (Qfloor ((0.5 + r3 * 2) * 10 + 0.5)). reflexivity.
  - apply Qabs_Qle_condition. split; lra.
  - apply Qabs_Qle_condition. split; lra.
Qed.

Lemma comparables_loop_spec (coords : LatLng) (bhk : Z) (count : nat) :
  forall (i : nat) (acc : list Comparable) (n : nat),
    Forall (comparable_ok coords bhk) acc ->
    let out := fst (comparables_loop rand coords bhk count i acc n) in
    Forall (comparable_ok coords bhk) out
    /\ List.length out = (List.length acc + count)%nat.
Proof.
  induction count as [|count IH]; intros i acc n Hacc; cbn.
  - split; [assumption | lia].
  - unfold rbind, Math_random. cbn.
    match goal with
    | |- context [comparables_loop _ _ _ _ _ ?acc' ?n'] =>
        destruct (IH (S i) acc' n') as [HF HL]
    end.
    + apply Forall_app. split; [assumption|].
      constructor; [|constructor].
      apply comparable_ok_generated; apply rand_range.
    + split; [exact HF|].
      rewrite HL, length_app. cbn. lia.
Qed.

Lemma generateMockComparables_spec (coords : LatLng) (bhk : Z) (n : nat) :
  let out := fst (generateMockComparables rand coords bhk n) in
  List.length out = 4%nat
  /\ Sorted distance_le out
  /\ Forall (comparable_ok coords bhk) out.
Proof.
  unfold generateMockComparables, rbind.
  pose proof (comparables_loop_spec coords bhk 4 0 [] n (Forall_nil _))
    as [HF HL].
  destruct (comparables_loop rand coords bhk 4 0 [] n) as [l k].
  cbn [fst rret] in *.
  pose proof (Array_sort_perm by_distance l) as HP.
  repeat split.
  - rewrite <- (Permutation_length HP). exact HL.
  - apply Array_sort_sorted.
  - eapply Permutation_Forall; eassumption.
Qed.

Lemma sizeMultiplier_of_spec (formData : PredictionRequest) :
  is_sizeMultiplier (req_total_sqft formData) (sizeMultiplier_of formData).
Proof.
  unfold is_sizeMultiplier, sizeMultiplier_of.
  destruct (Qlt_le_dec _ _); [now left|].
  destruct (Qlt_le_dec _ _); [right; now left|].
  right; right. now repeat split.
Qed.

Lemma getMockCoordinates_no_match (location : string) (n : nat) :
  no_match location = true ->
  getMockCoordinates rand location n =
  ((12.9716 + (rand n - 0.5) * 0.15, 77.5946 + (rand (S n) - 0.5) * 0.15),
   S (S n)).
Proof.
  intros H. unfold getMockCoordinates.
  now rewrite (lookup_location_none _ _ H).
Qed.

Lemma getMockCoordinates_match (location : string) (coords : LatLng)
    (n : nat) :
  lookup_location (Js.toLowerCase location) locationMap = Some coords ->
  getMockCoordinates rand location n = (coords, n).
Proof. intros H. unfold getMockCoordinates. now rewrite H. Qed.

Lemma estimate_interval (formData : PredictionRequest) (n : nat) :
  (0 <= req_bhk formData)%Z ->
  let r := estimate rand toFixed formData n in
  lower (confidence_interval r) <= predicted_price_per_sqft r
  /\ predicted_price_per_sqft r <= upper (confidence_interval r).
Proof.
  intros Hbhk r.
  destruct (estimate_fields formData n)
    as (_ & _ & _ & Hp & _ & Hl & Hu & _).
  fold r in Hp, Hl, Hu. rewrite Hp, Hl, Hu.
  pose proof (pricePerSqft_pos formData _ Hbhk
                (rand_range (jitter_cursor rand formData n))) as Hpos.
  split; apply round2_le; lra.
Qed.

Lemma estimate_comparables (formData : PredictionRequest) (n : nat) :
  let r := estimate rand toFixed formData n in
  exists comps : list Comparable,
    nearby_comparables r = Some comps
    /\ List.length comps = 4%nat
    /\ Sorted distance_le comps
    /\ Forall (comparable_ok
                 (latitude (coordinates r), longitude (coordinates r))
                 (req_bhk formData)) comps.
Proof.
  intros r.
  destruct (estimate_fields formData n)
    as (_ & _ & Hc & _ & _ & _ & _ & Hn).
  fold r in Hc, Hn. rewrite Hc, Hn. cbn [latitude longitude].
  eexists. split; [reflexivity|].
  rewrite <- surjective_pairing.
  apply generateMockComparables_spec.
Qed.

(** C2: for a request with [total_sqft > 0] and [bhk >= 0] the mock
    estimator returns [lower = round2 (pricePerSqft * 0.85)],
    [upper = round2 (pricePerSqft * 1.15)] and
    [predicted_price_per_sqft = round2 pricePerSqft], and the interval
    brackets the prediction: [lower <= predicted_price_per_sqft <= upper]. *)
Theorem mock_interval_brackets_prediction
    (formData : PredictionRequest) (n : nat) :
  0 < req_total_sqft formData ->
  (0 <= req_bhk formData)%Z ->
  let r := estimate rand toFixed formData n in
  let p := pricePerSqft_of formData (rand (jitter_cursor rand formData n)) in
  lower (confidence_interval r) == round2 (p * 0.85)
  /\ upper (confidence_interval r) == round2 (p * 1.15)
  /\ predicted_price_per_sqft r == round2 p
  /\ lower (confidence_interval r) <= predicted_price_per_sqft r
  /\ predicted_price_per_sqft r <= upper (confidence_interval r).
Proof.
  intros _ Hbhk r p.
  destruct (estimate_fields formData n)
    as (_ & _ & _ & Hp & _ & Hl & Hu & _).
  fold r p in Hp, Hl, Hu.
  split; [now rewrite Hl|]. split; [now rewrite Hu|].
  split; [now rewrite Hp|].
  apply estimate_interval, Hbhk.
Qed.

(** C3: the mock estimator's [predicted_price_per_sqft] is
    [round2 (6500 * (1 + (bhk - 2) * 0.15) * sizeMultiplier + j)] for a
    jitter [j] in [[-500, 500)], with [sizeMultiplier] 1.1 below 1000 sq.ft,
    0.9 above 2000 and 1 otherwise; for Koramangala, 1500 sq.ft, 3 BHK the
    value is within 500 of 7475 and the coordinates are
    [12.9349, 77.6175]. *)
Theorem mock_price_formula (formData : PredictionRequest) (n : nat) :
  (exists j m : Q,
      is_sizeMultiplier (req_total_sqft formData) m
      /\ -500 <= j < 500
      /\ predicted_price_per_sqft (estimate rand toFixed formData n) ==
         round2 (6500 * (1 + (inject_Z (req_bhk formData) - 2) * 0.15) * m
                 + j))
  /\ (forall (bath balcony : Z) (area_type : string),
        let r := estimate rand toFixed
                   (mkRequest "Koramangala" 1500 3 bath balcony area_type)
                   n in
        Qabs (predicted_price_per_sqft r - 7475) <= 500
        /\ coordinates r = {| latitude := 12.9349; longitude := 77.6175 |}).
Proof.
  split.
  - destruct (estimate_fields formData n) as (_ & _ & _ & Hp & _).
    cbv zeta in Hp. rewrite Hp.
    exists ((rand (jitter_cursor rand formData n) - 0.5) * 1000),
           (sizeMultiplier_of formData).
    split; [apply sizeMultiplier_of_spec|].
    pose proof (jitter_range _ (rand_range (jitter_cursor rand formData n))).
    split; [lra | reflexivity].
  - intros bath balcony area_type r.
    destruct (estimate_fields
                (mkRequest "Koramangala" 1500 3 bath balcony area_type) n)
      as (_ & _ & Hc & Hp & _).
    fold r in Hc, Hp. rewrite Hc, Hp. split; [|reflexivity].
    unfold jitter_cursor. cbn [req_location].
    rewrite (getMockCoordinates_match _ (12.9349, 77.6175)) by reflexivity.
    cbn [snd].
    pose proof (jitter_range _ (rand_range n)) as Hj.
    set (j := (rand n - 0.5) * 1000) in *.
    assert (Hprice :
              pricePerSqft_of
                (mkRequest "Koramangala" 1500 3 bath balcony area_type)
                (rand n) == 7475 + j).
    { unfold pricePerSqft_of, sizeMultiplier_of, j. cbn. field. }
    assert (Hlo : round2 6975 <= round2 (7475 + j))
      by (apply round2_le; lra).
    assert (Hhi : round2 (7475 + j) <= round2 7975)
      by (apply round2_le; lra).
    assert (E1 : round2 6975 == 6975) by reflexivity.
    assert (E2 : round2 7975 == 7975) by reflexivity.
    assert (Hr : round2
                   (pricePerSqft_of
                      (mkRequest "Koramangala" 1500 3 bath balcony area_type)
                      (rand n)) == round2 (7475 + j)).
    { unfold round2, Js.Math_round. now rewrite Hprice. }
    rewrite Hr. apply Qabs_Qle_condition. lra.
Qed.

(** C4: the comparables of the mock estimator are exactly 4, sorted
    ascending by [distance_km], and each has the request's [bhk],
    [total_sqft] in [[1000, 2000]], [price_per_sqft] in [[5000, 8000]],
    [distance_km] in [[0.5, 2.5]] with one decimal place, and coordinates
    within 0.01 degree of the resolved location. *)
Theorem mock_comparables_shape (formData : PredictionRequest) (n : nat) :
  let r := estimate rand toFixed formData n in
  exists comps : list Comparable,
    nearby_comparables r = Some comps
    /\ List.length comps = 4%nat
    /\ Sorted distance_le comps
    /\ Forall (comparable_ok
                 (latitude (coordinates r), longitude (coordinates r))
                 (req_bhk formData)) comps.
Proof. apply estimate_comparables. Qed.

(** C5: for [total_sqft > 0] the mock estimator's [total_estimated_price]
    is the unrounded price per sq.ft times [total_sqft], rounded to two
    decimals; it equals [predicted_price_per_sqft * total_sqft] up to the
    two roundings, a deviation of at most [0.005 + 0.005 * total_sqft]. *)
Theorem mock_total_price_within_rounding
    (formData : PredictionRequest) (n : nat) :
  0 < req_total_sqft formData ->
  let r := estimate rand toFixed formData n in
  let p := pricePerSqft_of formData (rand (jitter_cursor rand formData n)) in
  predicted_price_per_sqft r == round2 p
  /\ total_estimated_price r == round2 (p * req_total_sqft formData)
  /\ Qabs (total_estimated_price r
           - predicted_price_per_sqft r * req_total_sqft formData)
     <= 0.005 + 0.005 * req_total_sqft formData.
Proof.
  intros Hs r p.
  destruct (estimate_fields formData n) as (_ & _ & _ & Hp & Ht & _).
  fold r p in Hp, Ht. rewrite Hp, Ht.
  split; [reflexivity|]. split; [reflexivity|].
  pose proof (round2_error p) as [E1 E2].
  pose proof (round2_error (p * req_total_sqft formData)) as [E3 E4].
  set (s := req_total_sqft formData) in *.
  set (a := round2 p) in *. set (b := round2 (p * s)) in *.
  apply Qabs_Qle_condition. split; nra.
Qed.

(** C7: a location that matches no entry of the table still gets a result,
    with coordinates within 0.075 degree of the city centre
    [12.9716, 77.5946]. *)
Theorem mock_unknown_location_near_center
    (formData : PredictionRequest) (n : nat) :
  no_match (req_location formData) = true ->
  exists (r : PredictionResult) (n' : nat),
    generateMockPrediction rand toFixed formData n = (r, n')
    /\ Qabs (latitude (coordinates r) - fst CONFIG.BANGALORE_CENTER) <= 0.075
    /\ Qabs (longitude (coordinates r) - snd CONFIG.BANGALORE_CENTER)
       <= 0.075.
Proof.
  intros Hno.
  exists (estimate rand toFixed formData n),
         (snd (generateMockPrediction rand toFixed formData n)).
  split; [unfold estimate; apply surjective_pairing|].
  destruct (estimate_fields formData n) as (_ & _ & Hc & _).
  cbv zeta in Hc. rewrite Hc. unfold mockCoords_of.
  rewrite (getMockCoordinates_no_match _ n Hno).
  cbn [fst snd latitude longitude CONFIG.BANGALORE_CENTER].
  pose proof (rand_range n). pose proof (rand_range (S n)).
  split; apply Qabs_Qle_condition; split; lra.
Qed.

End EstimatorFacts.

Section LocationFacts.

Variable rand : nat -> Q.

Variable toFixed : Q -> nat -> string.

Lemma getMockCoordinates_first_match (location : string) (n : nat) :
  getMockCoordinates rand location n =
  match first_match location with
  | Some (_, coords) => (coords, n)
  | None =>
      ((12.9716 + (rand n - 0.5) * 0.15,
        77.5946 + (rand (S n) - 0.5) * 0.15), S (S n))
  end.
Proof.
  unfold getMockCoordinates, first_match.
  rewrite lookup_location_find. unfold key_matches.
  destruct (find _ locationMap) as [[key coords]|]; reflexivity.
Qed.

(** C6: location resolution is case-insensitive and matches substrings in
    either direction against the table of twelve entries, the first match
    in table order winning; [whitefield] and [Whitefield Main] both resolve
    to [12.9698, 77.7500]. *)
Theorem location_resolution (location : string) (n : nat) :
  List.length locationMap = 12%nat
  /\ getMockCoordinates rand (Js.toLowerCase location) n =
     getMockCoordinates rand location n
  /\ getMockCoordinates rand location n =
     match first_match location with
     | Some (_, coords) => (coords, n)
     | None =>
         ((12.9716 + (rand n - 0.5) * 0.15,
           77.5946 + (rand (S n) - 0.5) * 0.15), S (S n))
     end
  /\ getMockCoordinates rand "whitefield" n = (Whitefield, n)
  /\ getMockCoordinates rand "Whitefield Main" n = (Whitefield, n)
  /\ (forall (sqft sqft' : Q) (bhk bhk' bath bath' balcony balcony' : Z)
             (area area' : string),
        coordinates
          (estimate rand toFixed
             (mkRequest "whitefield" sqft bhk bath balcony area) n) =
        coordinates
          (estimate rand toFixed
             (mkRequest "Whitefield Main" sqft' bhk' bath' balcony' area') n)).
Proof.
  split; [reflexivity|].
  split.
  { unfold getMockCoordinates. now rewrite toLowerCase_idem. }
  split; [apply getMockCoordinates_first_match|].
  split; [reflexivity|]. split; [reflexivity|].
  intros.
  destruct (estimate_fields rand toFixed
              (mkRequest "whitefield" sqft bhk bath balcony area) n)
    as (_ & _ & H1 & _).
  destruct (estimate_fields rand toFixed
              (mkRequest "Whitefield Main" sqft' bhk' bath' balcony' area') n)
    as (_ & _ & H2 & _).
  cbv zeta in H1, H2. rewrite H1, H2. reflexivity.
Qed.

(** C10: the empty string, and any string whose lower-case form occurs in
    [whitefield], resolves to the first table entry [12.9698, 77.7500]
    and not to the jittered city centre: its longitude is more than 0.075
    degree away from the centre's.  The empty string matches every key of
    the table. *)
Theorem substring_of_first_key_resolves_to_it (location : string) (n : nat) :
  Js.includes (Js.toLowerCase "Whitefield") (Js.toLowerCase location) = true ->
  getMockCoordinates rand location n = ((12.9698, 77.7500), n)
  /\ ~ Qabs (snd (fst (getMockCoordinates rand location n))
             - snd CONFIG.BANGALORE_CENTER) <= 0.075
  /\ (forall key coords,
        In (key, coords) locationMap ->
        key_matches (Js.toLowerCase "") key = true).
Proof.
  intros H.
  assert (E : getMockCoordinates rand location n = ((12.9698, 77.7500), n)).
  { apply getMockCoordinates_match. cbn [locationMap lookup_location].
    unfold key_matches. now rewrite H. }
  split; [exact E|]. split.
  - rewrite E. cbn. intros Hle. now apply Hle.
  - intros key coords _. unfold key_matches. cbn [Js.toLowerCase].
    now rewrite includes_empty.
Qed.

End LocationFacts.

(** ** The map renderer *)

Lemma forEach_removeLayer (ls : list nat) :
  forall (s : AppState) (m : LMap),
    map s = Some m ->
    forEach ls L.removeLayer s =
    Returned tt (set_map (Some (remove_layers ls m)) s).
Proof.
  induction ls as [|l ls IH]; intros s m Hm.
  - cbn. unfold ret, set_map. rewrite <- Hm. now destruct s.
  - cbn [forEach]. unfold bind at 1.
    unfold L.removeLayer at 1, L.on_map. rewrite Hm.
    fold (remove_layer l m).
    rewrite (IH _ (remove_layer l m)) by reflexivity.
    reflexivity.
Qed.

Lemma remove_layers_layers (ls : list nat) :
  forall (m : LMap) (l : nat),
    In l (layers (remove_layers ls m)) <-> In l (layers m) /\ ~ In l ls.
Proof.
  induction ls as [|x ls IH]; intros m l; cbn.
  - tauto.
  - rewrite IH. cbn. rewrite filter_In, negb_true_iff, Nat.eqb_neq.
    intuition congruence.
Qed.

Lemma remove_layers_view (ls : list nat) :
  forall m : LMap, view (remove_layers ls m) = view m.
Proof.
  induction ls as [|x ls IH]; intros m; cbn; [|rewrite IH]; reflexivity.
Qed.

Lemma update_nth_last {A} (f : A -> A) (h : list A) (x : A) :
  L.update_nth (List.length h) f (h ++ [x]) = h ++ [f x].
Proof. induction h as [|y h IH]; cbn; [|rewrite IH]; reflexivity. Qed.

Lemma existsb_eqb_last (l : nat) (ls : list nat) :
  existsb (Nat.eqb l) (ls ++ [l]) = true.
Proof.
  rewrite existsb_app. cbn. rewrite Nat.eqb_refl.
  now rewrite orb_true_r.
Qed.

Lemma flat_map_nil {A B} (f : A -> list B) (l : list A) :
  (forall x, In x l -> f x = []) -> flat_map f l = [].
Proof.
  induction l as [|x l IH]; intros H; cbn; [reflexivity|].
  rewrite (H x (or_introl eq_refl)), IH; [reflexivity|].
  intros y Hy. apply H. now right.
Qed.

Lemma marker_of_app_old (h h' : list LObject) (l : nat) :
  (l < List.length h)%nat -> marker_of (h ++ h') l = marker_of h l.
Proof. intros H. unfold marker_of. now rewrite nth_error_app1. Qed.

Section MapFacts.

Variable toLocaleString : Q -> string.

Variable toString : Q -> string.

Lemma forEach_add_comparable_marker (comps : list Comparable) :
  forall (s : AppState) (m : LMap),
    map s = Some m ->
    forEach comps (add_comparable_marker toLocaleString toString) s =
    Returned tt (with_comparables toLocaleString toString comps s m).
Proof.
  induction comps as [|c comps IH]; intros s m Hm.
  - destruct s as [d h mp ms pm rg]. cbn in Hm. subst mp.
    destruct m as [v ls op].
    cbn. unfold ret, with_comparables. cbn. now rewrite !app_nil_r.
  - cbn [forEach]. unfold bind at 1.
    destruct s as [d h mp ms pm rg]. cbn in Hm. subst mp.
    destruct m as [v ls op].
    unfold add_comparable_marker, bind, L.marker, L.alloc, L.addTo,
      L.on_map, L.bindPopup, modify.
    cbn [heap map set_heap set_map set_markers dom markers predictionMarker
         rng view layers open_popup].
    rewrite update_nth_last.
    rewrite (IH _ (mkLMap v (ls ++ [List.length h]) op)) by reflexivity.
    unfold with_comparables.
    cbn [heap map dom markers predictionMarker rng view layers open_popup
         set_heap set_map set_markers List.map List.length seq].
    rewrite length_app, Nat.add_1_r. cbn [List.length].
    rewrite <- !app_assoc. reflexivity.
Qed.

Lemma clearMarkers_run (s : AppState) (m : LMap) :
  map s = Some m -> clearMarkers s = Returned tt (cleared s m).
Proof.
  intros Hm. unfold clearMarkers, bind, gets.
  rewrite (forEach_removeLayer _ s m Hm).
  destruct s as [d h mp ms pm rg]. cbn in Hm. subst mp.
  unfold cleared, old_markers, modify, L.removeLayer, L.on_map, ret.
  cbn [dom heap map markers predictionMarker rng set_map set_markers
       set_predictionMarker].
  destruct pm as [p|].
  - unfold remove_layers. rewrite fold_left_app. reflexivity.
  - now rewrite app_nil_r.
Qed.

Lemma updateMap_run (result : PredictionResult) (s : AppState) (m : LMap) :
  map s = Some m ->
  updateMap toLocaleString toString result s =
  Returned tt (updated toLocaleString toString result s m).
Proof.
  intros Hm. unfold updateMap. unfold bind at 1.
  rewrite (clearMarkers_run s m Hm).
  unfold cleared, updated, comparables_of.
  set (kept := remove_layers (old_markers s) m).
  destruct kept as [v ls op] eqn:Ekept.
  destruct s as [d h mp ms pm rg].
  run_eff. rewrite update_nth_last. run_eff.
  rewrite existsb_eqb_last. run_eff.
  fold (prediction_marker toLocaleString result).
  destruct (nearby_comparables result) as [comps|].
  - erewrite forEach_add_comparable_marker by reflexivity.
    unfold with_comparables.
    cbn [dom heap map markers predictionMarker rng view layers open_popup
         app].
    rewrite length_app, Nat.add_1_r. cbn [List.length].
    rewrite <- !app_assoc. cbn [app].
    destruct comps; reflexivity.
  - unfold ret. cbn [markers map List.length seq List.map].
    unfold L.setView, L.on_map. cbn. reflexivity.
Qed.

(** After [clearMarkers], a state that satisfied the invariant shows no
    marker. *)
Lemma kept_layers_not_markers (s : AppState) (m : LMap) (l : nat) :
  map s = Some m -> tracked s = true ->
  In l (layers (remove_layers (old_markers s) m)) ->
  (l < List.length (heap s))%nat /\ marker_of (heap s) l = [].
Proof.
  intros Hm Ht Hin. unfold tracked in Ht. rewrite Hm in Ht.
  apply remove_layers_layers in Hin. destruct Hin as [Hin Hold].
  rewrite forallb_forall in Ht. specialize (Ht l Hin).
  apply andb_true_iff in Ht. destruct Ht as [Hlt Hmk].
  apply Nat.ltb_lt in Hlt. split; [exact Hlt|].
  destruct (marker_of (heap s) l) as [|x xs]; [reflexivity|].
  exfalso. apply Hold. unfold old_markers, is_tracked in *.
  apply in_or_app. apply orb_true_iff in Hmk. destruct Hmk as [H | H].
  - left. apply existsb_exists in H. destruct H as (y & Hy & E).
    apply Nat.eqb_eq in E. now subst y.
  - right. destruct (predictionMarker s) as [p|]; [|discriminate].
    apply Nat.eqb_eq in H. subst p. now left.
Qed.

Lemma markers_on_map_cleared (s : AppState) (m : LMap) :
  map s = Some m -> tracked s = true ->
  markers_on_map (cleared s m) = [].
Proof.
  intros Hm Ht. unfold markers_on_map, cleared. cbn [map heap].
  apply flat_map_nil. intros l Hl.
  now destruct (kept_layers_not_markers s m l Hm Ht Hl).
Qed.

Lemma flat_map_marker_of_fresh (h : list LObject) (comps : list Comparable) :
  flat_map
    (marker_of
       (h ++ List.map (comparable_marker toLocaleString toString) comps))
           (seq (List.length h) (List.length comps)) =
  List.map (fun c => ((c_latitude c, c_longitude c), comparable_marker_icon))
           comps.
Proof.
  revert h. induction comps as [|c comps IH]; intros h; [reflexivity|].
  cbn [List.length seq flat_map List.map].
  unfold marker_of at 1.
  rewrite nth_error_app2, Nat.sub_diag by lia. cbn [nth_error].
  unfold comparable_marker at 1. cbn [app]. f_equal.
  specialize (IH (h ++ [comparable_marker toLocaleString toString c])).
  rewrite length_app, Nat.add_1_r, <- app_assoc in IH. exact IH.
Qed.

(** After [updateMap], a state that satisfied the invariant shows the
    prediction marker and one marker per comparable, and nothing else. *)
Lemma markers_on_map_updated (result : PredictionResult) (s : AppState)
    (m : LMap) :
  map s = Some m -> tracked s = true ->
  markers_on_map (updated toLocaleString toString result s m) =
  ((latitude (coordinates result), longitude (coordinates result)),
   prediction_marker_icon)
  :: List.map (fun c => ((c_latitude c, c_longitude c),
                         comparable_marker_icon))
              (comparables_of result).
Proof.
  intros Hm Ht. unfold markers_on_map, updated. cbn [map heap layers].
  rewrite flat_map_app.
  rewrite flat_map_nil.
  2:{ intros l Hl.
      destruct (kept_layers_not_markers s m l Hm Ht Hl) as [Hlt Hmk].
      now rewrite marker_of_app_old. }
  cbn [app flat_map].
  unfold marker_of at 1.
  rewrite nth_error_app2, Nat.sub_diag by lia.
  cbn [nth_error prediction_marker app]. f_equal.
  pose proof (flat_map_marker_of_fresh
                (heap s ++ [prediction_marker toLocaleString result])
                (comparables_of result)) as H.
  rewrite length_app, Nat.add_1_r, <- app_assoc in H. exact H.
Qed.

Lemma tracked_updated (result : PredictionResult) (s : AppState) (m : LMap) :
  map s = Some m -> tracked s = true ->
  tracked (updated toLocaleString toString result s m) = true.
Proof.
  intros Hm Ht. unfold tracked, updated.
  cbn [map heap layers markers predictionMarker].
  rewrite forallb_forall. intros l Hl.
  rewrite length_app. cbn [List.length]. rewrite length_map.
  apply in_app_or in Hl. destruct Hl as [Hl | [Hl | Hl]].
  - destruct (kept_layers_not_markers s m l Hm Ht Hl) as [Hlt Hmk].
    rewrite marker_of_app_old, Hmk by assumption.
    rewrite andb_true_r. apply Nat.ltb_lt. lia.
  - subst l. apply andb_true_iff. split; [apply Nat.ltb_lt; lia|].
    destruct (marker_of _ _); [reflexivity|].
    unfold is_tracked. cbn [predictionMarker].
    now rewrite Nat.eqb_refl, orb_true_r.
  - apply in_seq in Hl. apply andb_true_iff. split; [apply Nat.ltb_lt; lia|].
    destruct (marker_of _ _); [reflexivity|].
    unfold is_tracked. cbn [markers]. apply orb_true_iff. left.
    apply existsb_exists. exists l. split; [|apply Nat.eqb_refl].
    apply in_seq. lia.
Qed.

End MapFacts.

(** ** The result renderer and the prediction client *)

Lemma count_icon_shown (result : PredictionResult) :
  count_icon prediction_marker_icon (shown_markers result) = 1%nat
  /\ count_icon comparable_marker_icon (shown_markers result) =
     List.length (comparables_of result)
  /\ count_icon pulsing_marker (shown_markers result) = 0%nat.
Proof.
  unfold count_icon, shown_markers. cbn [filter snd icon_eqb List.length].
  induction (comparables_of result) as [|c comps (IH1 & IH2 & IH3)];
    [now cbn|].
  cbn [List.map filter snd icon_eqb List.length].
  repeat split; [exact IH1 | now rewrite IH2 | exact IH3].
Qed.

Lemma tracked_map (s : AppState) :
  tracked s = true -> exists m, map s = Some m.
Proof.
  unfold tracked. destruct (map s) as [m|]; [eauto | discriminate].
Qed.

Section ClientFacts.

Variable rand : nat -> Q.

Variable toFixed : Q -> nat -> string.

Variable toLocaleString : Q -> string.

Variable toString : Q -> string.

Hypothesis rand_range : forall n, 0 <= rand n < 1.

Abbreviation displayResults' := (displayResults toLocaleString toString).

Abbreviation updateMap' := (updateMap toLocaleString toString).

Abbreviation predictPrice' :=
  (predictPrice rand toFixed toLocaleString toString).

Lemma displayResults_run (result : PredictionResult) (s : AppState) :
  exists s',
    displayResults' result s = Returned tt s'
    /\ displays toLocaleString toString (dom s') result
    /\ loading_overlay_hidden (dom s') = loading_overlay_hidden (dom s)
    /\ heap s' = heap s /\ map s' = map s /\ markers s' = markers s
    /\ predictionMarker s' = predictionMarker s /\ rng s' = rng s.
Proof.
  eexists. split; [reflexivity|].
  destruct s as [d h mp ms pm rg]. cbn.
  unfold displays, comparables_of. cbn.
  repeat split.
  destruct (nearby_comparables result) as [[|c comps]|]; reflexivity.
Qed.

Lemma displayResults_tracked (result : PredictionResult) (s : AppState) :
  tracked (final_state (displayResults' result s)) = tracked s.
Proof. now destruct s. Qed.

Lemma render_sequence_run (result : PredictionResult) (s : AppState)
    (m : LMap) :
  map s = Some m ->
  exists s',
    render_sequence toLocaleString toString result s = Returned tt s'
    /\ displays toLocaleString toString (dom s') result
    /\ loading_overlay_hidden (dom s') = true
    /\ rng s' = rng s
    /\ (tracked s = true ->
        markers_on_map s' = shown_markers result /\ tracked s' = true).
Proof.
  intros Hm. unfold render_sequence.
  destruct s as [d h mp ms pm rg]. cbn in Hm. subst mp.
  unfold bind at 1. unfold showLoading at 1, modify at 1.
  unfold bind at 1. unfold displayResults at 1, modify at 1.
  unfold bind at 1. erewrite updateMap_run by reflexivity.
  eexists. split; [reflexivity|].
  split.
  { unfold displays, comparables_of. cbn. repeat split.
    destruct (nearby_comparables result) as [[|c comps]|]; reflexivity. }
  split; [reflexivity|]. split; [reflexivity|].
  intros Ht. split.
  - exact (markers_on_map_updated toLocaleString toString result
             (mkApp _ h (Some m) ms pm rg) m eq_refl Ht).
  - exact (tracked_updated toLocaleString toString result
             (mkApp _ h (Some m) ms pm rg) m eq_refl Ht).
Qed.

Lemma fetch_prediction_failed (outcome : FetchOutcome) (s : AppState) :
  backend_failed outcome = true ->
  exists e, fetch_prediction outcome s = Thrown e s.
Proof.
  destruct outcome as [|[r|]|[d|]]; cbn; intros H;
    try discriminate; eexists; reflexivity.
Qed.

Lemma predictPrice_success (formData : PredictionRequest)
    (result : PredictionResult) (s : AppState) (m : LMap) :
  map s = Some m ->
  predictPrice' formData (Status2xx (Some result)) s =
  render_sequence toLocaleString toString result s.
Proof.
  intros Hm.
  destruct s as [d h mp ms pm rg]. cbn in Hm. subst mp.
  unfold render_sequence. run_client.
  erewrite updateMap_run by reflexivity. reflexivity.
Qed.

Lemma predictPrice_failure (formData : PredictionRequest)
    (outcome : FetchOutcome) (s : AppState) (m : LMap) :
  backend_failed outcome = true ->
  map s = Some m ->
  predictPrice' formData outcome s =
  fallback_sequence rand toFixed toLocaleString toString formData s.
Proof.
  intros Hf Hm.
  destruct s as [d h mp ms pm rg]. cbn in Hm. subst mp.
  unfold fallback_sequence.
  destruct outcome as [|[r|]|[detail|]]; try discriminate Hf;
    run_client;
    destruct (generateMockPrediction rand toFixed formData rg) as [mock n'];
    erewrite updateMap_run by reflexivity; reflexivity.
Qed.

Lemma fallback_sequence_render (formData : PredictionRequest)
    (s : AppState) :
  fallback_sequence rand toFixed toLocaleString toString formData s =
  render_sequence toLocaleString toString
    (fst (generateMockPrediction rand toFixed formData (rng s)))
    (set_rng (snd (generateMockPrediction rand toFixed formData (rng s))) s).
Proof.
  destruct s as [d h mp ms pm rg].
  unfold fallback_sequence, render_sequence. run_client.
  destruct (generateMockPrediction rand toFixed formData rg) as [mock n'].
  reflexivity.
Qed.

(** C1: when the backend call fails (network error, status other than
    2xx, or a body that does not parse), [predictPrice] returns normally,
    with the mock estimator's result in the display fields and on the map
    and the loading overlay hidden; that result has every field of a
    [PredictionResult], four sorted comparables, and for [bhk >= 0] an
    interval that brackets the prediction. *)
Theorem predictPrice_falls_back_to_mock (formData : PredictionRequest)
    (outcome : FetchOutcome) (s : AppState) :
  backend_failed outcome = true ->
  tracked s = true ->
  let mock := fst (generateMockPrediction rand toFixed formData (rng s)) in
  exists s',
    predictPrice' formData outcome s = Returned tt s'
    /\ displays toLocaleString toString (dom s') mock
    /\ markers_on_map s' = shown_markers mock
    /\ loading_overlay_hidden (dom s') = true
    /\ success mock = true
    /\ location mock = req_location formData
    /\ (exists comps,
          nearby_comparables mock = Some comps
          /\ List.length comps = 4%nat
          /\ Sorted distance_le comps)
    /\ ((0 <= req_bhk formData)%Z ->
        lower (confidence_interval mock) <= predicted_price_per_sqft mock
        /\ predicted_price_per_sqft mock <= upper (confidence_interval mock)).
Proof.
  intros Hf Ht mock.
  destruct (tracked_map s Ht) as [m Hm].
  rewrite (predictPrice_failure formData outcome s m Hf Hm).
  rewrite fallback_sequence_render. fold mock.
  destruct (render_sequence_run mock
              (set_rng (snd (generateMockPrediction rand toFixed formData
                               (rng s))) s) m)
    as (s' & Hrun & Hd & Hl & _ & Hmap).
  { now destruct s. }
  exists s'. split; [exact Hrun|]. split; [exact Hd|].
  split.
  { apply Hmap. now destruct s. }
  split; [exact Hl|].
  destruct (estimate_fields rand toFixed formData (rng s))
    as (Hs & Hloc & _).
  split; [exact Hs|]. split; [exact Hloc|].
  split.
  - destruct (estimate_comparables rand toFixed rand_range formData (rng s))
      as (comps & H1 & H2 & H3 & _).
    exists comps. now repeat split.
  - intros Hb. exact (estimate_interval rand toFixed rand_range formData
                        (rng s) Hb).
Qed.

(** C8: from a state that satisfies the map invariant (as the state after
    [initMap] does), [clearMarkers] leaves no marker on the map, and after
    [updateMap r1] then [updateMap r2] the map shows exactly the prediction
    marker at [r2]'s coordinates and one marker per comparable of [r2]. *)
Theorem updateMap_twice_leaks_no_marker (r1 r2 : PredictionResult)
    (s : AppState) :
  tracked s = true ->
  (exists s0, clearMarkers s = Returned tt s0 /\ markers_on_map s0 = [])
  /\ exists s1 s2,
      updateMap' r1 s = Returned tt s1
      /\ updateMap' r2 s1 = Returned tt s2
      /\ markers_on_map s1 = shown_markers r1
      /\ markers_on_map s2 = shown_markers r2
      /\ count_icon prediction_marker_icon (markers_on_map s2) = 1%nat
      /\ count_icon comparable_marker_icon (markers_on_map s2) =
         List.length (comparables_of r2)
      /\ count_icon pulsing_marker (markers_on_map s2) = 0%nat
      /\ List.length (markers_on_map s2) =
         S (List.length (comparables_of r2))
      /\ tracked s2 = true.
Proof.
  intros Ht. destruct (tracked_map s Ht) as [m Hm]. split.
  - exists (cleared s m). split.
    + now apply clearMarkers_run.
    + now apply markers_on_map_cleared.
  - pose proof (tracked_updated toLocaleString toString r1 s m Hm Ht) as Ht1.
    destruct (tracked_map _ Ht1) as [m1 Hm1].
    exists (updated toLocaleString toString r1 s m),
           (updated toLocaleString toString r2
              (updated toLocaleString toString r1 s m) m1).
    pose proof (markers_on_map_updated toLocaleString toString r2 _ m1
                  Hm1 Ht1) as Hshown.
    destruct (count_icon_shown r2) as (C1 & C2 & C3).
    split; [now apply updateMap_run|].
    split; [now apply updateMap_run|].
    split; [now apply markers_on_map_updated|].
    split; [exact Hshown|].
    rewrite Hshown.
    split; [exact C1|]. split; [exact C2|]. split; [exact C3|].
    split.
    + unfold shown_markers. cbn [List.length]. now rewrite length_map.
    + now apply tracked_updated.
Qed.

(** C9, as the code has it: [displayResults] writes the display fields
    and rebuilds the comparables list but leaves the map, the heap of
    layers, [markers] and [predictionMarker] as they were; it is
    [predictPrice] that calls [updateMap] on the same result right after
    [displayResults], for a backend result and for the mock result
    alike. *)
Theorem displayResults_then_updateMap_by_caller (result : PredictionResult)
    (formData : PredictionRequest) (outcome : FetchOutcome)
    (s : AppState) (m : LMap) :
  map s = Some m ->
  (exists s',
      displayResults' result s = Returned tt s'
      /\ displays toLocaleString toString (dom s') result
      /\ heap s' = heap s /\ map s' = map s /\ markers s' = markers s
      /\ predictionMarker s' = predictionMarker s
      /\ markers_on_map s' = markers_on_map s)
  /\ predictPrice' formData (Status2xx (Some result)) s =
     (showLoading true ;;
      displayResults' result ;;
      updateMap' result ;;
      showLoading false)%eff s
  /\ (backend_failed outcome = true ->
      predictPrice' formData outcome s =
      (showLoading true ;;
       mockResult <-
         Math_random_eff (generateMockPrediction rand toFixed formData) ;;
       displayResults' mockResult ;;
       updateMap' mockResult ;;
       showLoading false)%eff s).
Proof.
  intros Hm. split; [|split].
  - destruct (displayResults_run result s)
      as (s' & Hrun & Hd & _ & Hh & Hmp & Hms & Hpm & _).
    exists s'.
    split; [exact Hrun|]. split; [exact Hd|]. split; [exact Hh|].
    split; [exact Hmp|]. split; [exact Hms|]. split; [exact Hpm|].
    unfold markers_on_map. now rewrite Hh, Hmp.
  - exact (predictPrice_success formData result s m Hm).
  - intros Hf. exact (predictPrice_failure formData outcome s m Hf Hm).
Qed.

End ClientFacts.

(** ** The invariant holds in every state the page can reach *)

Lemma same_layers_refl (s : AppState) : same_layers s s.
Proof. now repeat split. Qed.

Lemma same_layers_trans (s1 s2 s3 : AppState) :
  same_layers s1 s2 -> same_layers s2 s3 -> same_layers s1 s3.
Proof.
  intros (A1 & A2 & A3 & A4) (B1 & B2 & B3 & B4).
  repeat split; congruence.
Qed.

Lemma same_layers_tracked (s s' : AppState) :
  same_layers s s' -> tracked s' = tracked s.
Proof.
  intros (Hh & Hms & Hpm & Hl). unfold tracked, is_tracked.
  rewrite Hh, Hms, Hpm.
  destruct (map s) as [m|], (map s') as [m'|]; cbn in Hl;
    try discriminate; [|reflexivity].
  now injection Hl as ->.
Qed.

Lemma bind_same_layers {A B} (c : Eff A) (k : A -> Eff B) (s : AppState) :
  same_layers s (final_state (c s)) ->
  (forall a s1, same_layers s1 (final_state (k a s1))) ->
  same_layers s (final_state (bind c k s)).
Proof.
  intros Hc Hk. unfold bind. destruct (c s) as [a s1 | e s1]; cbn in *.
  - eapply same_layers_trans; [exact Hc | apply Hk].
  - exact Hc.
Qed.

Lemma forEach_same_layers {A} (f : A -> Eff unit) (l : list A) :
  (forall x s, same_layers s (final_state (f x s))) ->
  forall s, same_layers s (final_state (forEach l f s)).
Proof.
  intros Hf. induction l as [|x l IH]; intros s; cbn [forEach].
  - apply same_layers_refl.
  - apply bind_same_layers; [apply Hf | intros _ s1; apply IH].
Qed.

Lemma setView_same_layers (center : LatLng) (zoom : Z) (s : AppState) :
  same_layers s (final_state (L.setView center zoom s)).
Proof.
  unfold L.setView, L.on_map, same_layers.
  destruct s as [d h [m|] ms pm rg]; cbn; now repeat split.
Qed.

Lemma openPopup_same_layers (layer : nat) (s : AppState) :
  same_layers s (final_state (L.openPopup layer s)).
Proof.
  unfold L.openPopup, modify, same_layers.
  destruct s as [d h [m|] ms pm rg]; cbn; [|now repeat split].
  destruct (existsb (Nat.eqb layer) (layers m)); cbn; now repeat split.
Qed.

Lemma getLatLng_same_layers (layer : nat) (s : AppState) :
  same_layers s (final_state (L.getLatLng layer s)).
Proof.
  unfold L.getLatLng.
  destruct (nth_error (heap s) layer) as [[|ll ic pp]|]; cbn;
    apply same_layers_refl.
Qed.

Lemma focusComparable_same_layers (comp : Comparable) (s : AppState) :
  same_layers s (final_state (focusComparable comp s)).
Proof.
  unfold focusComparable.
  apply bind_same_layers; [apply setView_same_layers|]. intros _ s1.
  apply bind_same_layers; [apply same_layers_refl|]. intros ms s2.
  apply forEach_same_layers. intros marker s3.
  apply bind_same_layers; [apply getLatLng_same_layers|]. intros ll s4.
  destruct (Qlt_le_dec _ _); [|apply same_layers_refl].
  destruct (Qlt_le_dec _ _); [|apply same_layers_refl].
  apply openPopup_same_layers.
Qed.

Section Reachable.

Variable rand : nat -> Q.

Variable toFixed : Q -> nat -> string.

Variable toLocaleString : Q -> string.

Variable toString : Q -> string.

Lemma predictPrice_tracked (formData : PredictionRequest)
    (outcome : FetchOutcome) (s : AppState) :
  tracked s = true ->
  tracked (final_state
             (predictPrice rand toFixed toLocaleString toString
                formData outcome s)) = true.
Proof.
  intros Ht. destruct (tracked_map s Ht) as [m Hm].
  destruct (backend_failed outcome) eqn:Hf.
  - rewrite (predictPrice_failure rand toFixed toLocaleString toString
               formData outcome s m Hf Hm).
    rewrite fallback_sequence_render.
    match goal with
    | |- context [render_sequence _ _ ?r ?st] =>
        destruct (render_sequence_run toLocaleString toString r st m)
          as (s' & Hrun & _ & _ & _ & Hmap)
    end.
    { now destruct s. }
    rewrite Hrun. apply Hmap. now destruct s.
  - destruct outcome as [|[r|]|[detail|]]; try discriminate Hf.
    rewrite (predictPrice_success rand toFixed toLocaleString toString
               formData r s m Hm).
    destruct (render_sequence_run toLocaleString toString r s m Hm)
      as (s' & Hrun & _ & _ & _ & Hmap).
    rewrite Hrun. now apply Hmap.
Qed.

(** X1: in every state a session reaches, the map exists and every marker
    on it is referenced by [markers] or [predictionMarker], so the next
    [clearMarkers] takes it off. *)
Lemma reachable_tracked (s : AppState) :
  reachable rand toFixed toLocaleString toString s -> tracked s = true.
Proof.
  induction 1 as [| s formData outcome _ IH | s comp _ IH].
  - reflexivity.
  - now apply predictPrice_tracked.
  - rewrite (same_layers_tracked s); [exact IH|].
    apply focusComparable_same_layers.
Qed.

End Reachable.

(** ** Witnesses *)

Lemma sample_rand_range (n : nat) : 0 <= sample_rand n < 1.
Proof.
  unfold sample_rand, Qle, Qlt. cbn [Qnum Qden].
  pose proof (Nat.mod_upper_bound n 7). lia.
Qed.

Lemma initialised_tracked :
  tracked initialised = true
  /\ markers_on_map initialised = [(CONFIG.BANGALORE_CENTER, pulsing_marker)].
Proof. split; reflexivity. Qed.

(** The two roundings of C5 can differ by far more than a cent: here by
    1.67 on a total of about 10.6 million. *)
Lemma total_price_deviation_example :
  0.01 < Qabs (total_estimated_price sample_result
               - predicted_price_per_sqft sample_result
                 * req_total_sqft koramangala_request).
Proof. reflexivity. Qed.

Lemma predictPrice_falls_back_to_mock_witness :
  exists s',
    predictPrice sample_rand sample_toFixed sample_format sample_format
      koramangala_request
      (StatusOther (Some (Some "Internal Server Error"%string)))
      initialised = Returned tt s'
    /\ markers_on_map s' =
       shown_markers
         (fst (generateMockPrediction sample_rand sample_toFixed
                 koramangala_request (rng initialised)))
    /\ loading_overlay_hidden (dom s') = true.
Proof.
  destruct (predictPrice_falls_back_to_mock sample_rand sample_toFixed
              sample_format sample_format sample_rand_range
              koramangala_request
              (StatusOther (Some (Some "Internal Server Error"%string)))
              initialised eq_refl eq_refl)
    as (s' & Hrun & _ & Hmap & Hl & _).
  exists s'. split; [exact Hrun|]. split; [exact Hmap | exact Hl].
Defined.

Lemma mock_interval_brackets_prediction_witness :
  0 < req_total_sqft koramangala_request
  /\ (0 <= req_bhk koramangala_request)%Z
  /\ lower (confidence_interval sample_result)
     <= predicted_price_per_sqft sample_result
  /\ predicted_price_per_sqft sample_result
     <= upper (confidence_interval sample_result).
Proof.
  assert (H1 : 0 < req_total_sqft koramangala_request) by reflexivity.
  assert (H2 : (0 <= req_bhk koramangala_request)%Z) by (cbn; lia).
  split; [exact H1|]. split; [exact H2|].
  apply (mock_interval_brackets_prediction sample_rand sample_toFixed
           sample_rand_range koramangala_request 0 H1 H2).
Defined.

Lemma mock_price_formula_witness :
  Qabs (predicted_price_per_sqft sample_result - 7475) <= 500
  /\ coordinates sample_result =
     {| latitude := 12.9349; longitude := 77.6175 |}.
Proof.
  apply (mock_price_formula sample_rand sample_toFixed sample_rand_range
           koramangala_request 0).
Defined.

Lemma mock_comparables_shape_witness :
  exists comps : list Comparable,
    nearby_comparables sample_result = Some comps
    /\ List.length comps = 4%nat
    /\ Sorted distance_le comps
    /\ Forall (comparable_ok (12.9349, 77.6175) 3) comps.
Proof.
  apply (mock_comparables_shape sample_rand sample_toFixed sample_rand_range
           koramangala_request 0).
Defined.

Lemma mock_total_price_within_rounding_witness :
  0 < req_total_sqft koramangala_request
  /\ Qabs (total_estimated_price sample_result
           - predicted_price_per_sqft sample_result
             * req_total_sqft koramangala_request)
     <= 0.005 + 0.005 * req_total_sqft koramangala_request.
Proof.
  assert (H : 0 < req_total_sqft koramangala_request) by reflexivity.
  split; [exact H|].
  apply (mock_total_price_within_rounding sample_rand sample_toFixed
           koramangala_request 0 H).
Defined.

Lemma mock_unknown_location_near_center_witness :
  no_match (req_location unknown_request) = true
  /\ exists (r : PredictionResult) (n' : nat),
      generateMockPrediction sample_rand sample_toFixed unknown_request
        0%nat = (r, n')
      /\ Qabs (latitude (coordinates r) - fst CONFIG.BANGALORE_CENTER)
         <= 0.075
      /\ Qabs (longitude (coordinates r) - snd CONFIG.BANGALORE_CENTER)
         <= 0.075.
Proof.
  split; [reflexivity|].
  apply (mock_unknown_location_near_center sample_rand sample_toFixed
           sample_rand_range unknown_request 0 eq_refl).
Defined.

Lemma updateMap_twice_leaks_no_marker_witness :
  tracked initialised = true
  /\ exists s1 s2,
      updateMap sample_format sample_format sample_result initialised
      = Returned tt s1
      /\ updateMap sample_format sample_format
           (estimate sample_rand sample_toFixed unknown_request 0) s1
         = Returned tt s2
      /\ count_icon prediction_marker_icon (markers_on_map s2) = 1%nat
      /\ count_icon comparable_marker_icon (markers_on_map s2) = 4%nat
      /\ count_icon pulsing_marker (markers_on_map s2) = 0%nat.
Proof.
  split; [reflexivity|].
  destruct (updateMap_twice_leaks_no_marker sample_format sample_format
              sample_result
              (estimate sample_rand sample_toFixed unknown_request 0)
              initialised eq_refl)
    as (_ & s1 & s2 & H1 & H2 & _ & _ & C1 & C2 & C3 & _).
  exists s1, s2. repeat split; assumption.
Defined.

(** C9 as stated fails: on the freshly initialised page [displayResults]
    returns with the map untouched, still showing the centre marker and no
    prediction marker; the markers of the result appear only once
    [updateMap] is called. *)
Lemma displayResults_leaves_map_untouched :
  let s1 := final_state
              (displayResults sample_format sample_format sample_result
                 initialised) in
  displayResults sample_format sample_format sample_result initialised
  = Returned tt s1
  /\ map s1 = map initialised
  /\ markers_on_map s1 = [(CONFIG.BANGALORE_CENTER, pulsing_marker)]
  /\ markers_on_map s1 <> shown_markers sample_result
  /\ markers_on_map
       (final_state (updateMap sample_format sample_format sample_result s1))
     = shown_markers sample_result.
Proof.
  cbv zeta. split; [reflexivity|]. split; [reflexivity|].
  split; [reflexivity|]. split; [|reflexivity].
  cbn. discriminate.
Qed.

Lemma displayResults_then_updateMap_by_caller_witness :
  map initialised <> None
  /\ predictPrice sample_rand sample_toFixed sample_format sample_format
       koramangala_request (Status2xx (Some sample_result)) initialised =
     (showLoading true ;;
      displayResults sample_format sample_format sample_result ;;
      updateMap sample_format sample_format sample_result ;;
      showLoading false)%eff initialised.
Proof.
  split; [discriminate|].
  apply (displayResults_then_updateMap_by_caller sample_rand sample_toFixed
           sample_format sample_format sample_result koramangala_request
           NetworkError initialised
           {| view := ViewAt CONFIG.BANGALORE_CENTER CONFIG.DEFAULT_ZOOM;
              layers := [0; 1]%nat; open_popup := None |} eq_refl).
Defined.

Lemma substring_of_first_key_resolves_to_it_witness :
  Js.includes (Js.toLowerCase "Whitefield") (Js.toLowerCase "") = true
  /\ getMockCoordinates sample_rand "" 0%nat = ((12.9698, 77.7500), 0%nat)
  /\ ~ Qabs (snd (fst (getMockCoordinates sample_rand "" 0%nat))
             - snd CONFIG.BANGALORE_CENTER) <= 0.075.
Proof.
  split; [reflexivity|].
  destruct (substring_of_first_key_resolves_to_it sample_rand "" 0%nat
              eq_refl) as (H1 & H2 & _).
  split; [exact H1 | exact H2].
Defined.

(** * Further properties of the code *)

(** ** The mock estimator beyond the valid request *)

Lemma lookup_location_in (normalizedLoc : string)
    (entries : list (string * LatLng)) (coords : LatLng) :
  lookup_location normalizedLoc entries = Some coords ->
  exists key,
    In (key, coords) entries /\ key_matches normalizedLoc key = true.
Proof.
  induction entries as [|[key c] rest IH]; cbn; [discriminate|].
  destruct (key_matches normalizedLoc key) eqn:E.
  - intros [= ->]. exists key. split; [now left | exact E].
  - intros H. destruct (IH H) as (k & Hin & Hk).
    exists k. split; [now right | exact Hk].
Qed.

Lemma lookup_location_some (normalizedLoc : string)
    (entries : list (string * LatLng)) :
  forallb (fun entry => negb (key_matches normalizedLoc (fst entry)))
          entries = false ->
  exists coords, lookup_location normalizedLoc entries = Some coords.
Proof.
  induction entries as [|[key c] rest IH]; cbn; [discriminate|].
  destruct (key_matches normalizedLoc key); cbn; [eauto | exact IH].
Qed.

Section EstimatorExtras.

Variable rand : nat -> Q.
Variable toFixed : Q -> nat -> string.

Hypothesis rand_range : forall n, 0 <= rand n < 1.

Lemma comparables_loop_cursor (coords : LatLng) (bhk : Z) (count : nat) :
  forall (i : nat) (acc : list Comparable) (n : nat),
    snd (comparables_loop rand coords bhk count i acc n) = (n + 5 * count)%nat.
Proof.
  induction count as [|count IH]; intros i acc n; cbn.
  - lia.
  - unfold rbind, Math_random. cbn. rewrite IH. lia.
Qed.

(** X18: the estimator draws 21 random numbers for a location that matches the
    table (one for the jitter, five per comparable) and 23 for one that
    does not (two more for the coordinates). *)
Theorem mock_draw_count (formData : PredictionRequest) (n : nat) :
  snd (generateMockPrediction rand toFixed formData n) =
  (n + if no_match (req_location formData) then 23 else 21)%nat.
Proof.
  unfold generateMockPrediction, rbind, getMockCoordinates.
  destruct (no_match (req_location formData)) eqn:E.
  - unfold no_match in E. rewrite (lookup_location_none _ _ E).
    unfold Math_random at 1 2, rret at 1. cbn [fst snd].
    unfold Math_random at 1. unfold generateMockComparables, rbind.
    match goal with
    | |- context [comparables_loop rand ?c ?b 4 0 [] ?k] =>
        pose proof (comparables_loop_cursor c b 4 0 [] k) as H;
        destruct (comparables_loop rand c b 4 0 [] k) as [l k']
    end.
    cbn in *. lia.
  - unfold no_match in E.
    destruct (lookup_location_some _ _ E) as [coords ->].
    unfold rret at 1. unfold Math_random at 1.
    unfold generateMockComparables, rbind.
    match goal with
    | |- context [comparables_loop rand ?c ?b 4 0 [] ?k] =>
        pose proof (comparables_loop_cursor c b 4 0 [] k) as H;
        destruct (comparables_loop rand c b 4 0 [] k) as [l k']
    end.
    cbn in *. lia.
Qed.

(** X17: a location that matches some entry of the table gets the coordinates
    of an entry it matches, exactly as tabulated, and draws no random
    number. *)
Theorem matching_location_gets_table_coordinates
    (location : string) (n : nat) :
  no_match location = false ->
  exists key coords,
    In (key, coords) locationMap
    /\ key_matches (Js.toLowerCase location) key = true
    /\ getMockCoordinates rand location n = (coords, n).
Proof.
  intros H. unfold no_match in H.
  destruct (lookup_location_some _ _ H) as [coords Hc].
  destruct (lookup_location_in _ _ _ Hc) as (key & Hin & Hk).
  exists key, coords. split; [exact Hin|]. split; [exact Hk|].
  unfold getMockCoordinates. now rewrite Hc.
Qed.

(** X16: no entry of the table shadows another: the name of a table entry,
    written in any letter case, resolves to that entry's own
    coordinates. *)
Theorem table_key_resolves_to_own_entry
    (location key : string) (coords : LatLng) (n : nat) :
  In (key, coords) locationMap ->
  Js.toLowerCase location = Js.toLowerCase key ->
  getMockCoordinates rand location n = (coords, n).
Proof.
  intros Hin Hl. unfold getMockCoordinates. rewrite Hl.
  cbn in Hin.
  repeat (destruct Hin as [Hin | Hin];
          [injection Hin as <- <-; reflexivity|]).
  contradiction.
Qed.

(** X19: with the same location, area and random source, a request with more
    bedrooms never gets a lower price per square foot. *)
Theorem mock_price_monotone_in_bhk
    (location : string) (total_sqft : Q) (bhk bhk' bath bath' : Z)
    (balcony balcony' : Z) (area_type area_type' : string) (n : nat) :
  (bhk <= bhk')%Z ->
  predicted_price_per_sqft
    (estimate rand toFixed
       (mkRequest location total_sqft bhk bath balcony area_type) n)
  <= predicted_price_per_sqft
       (estimate rand toFixed
          (mkRequest location total_sqft bhk' bath' balcony' area_type') n).
Proof.
  intros Hb.
  destruct (estimate_fields rand toFixed
              (mkRequest location total_sqft bhk bath balcony area_type) n)
    as (_ & _ & _ & H1 & _).
  destruct (estimate_fields rand toFixed
              (mkRequest location total_sqft bhk' bath' balcony' area_type')
              n) as (_ & _ & _ & H2 & _).
  cbv zeta in H1, H2. rewrite H1, H2. apply round2_le.
  unfold jitter_cursor, pricePerSqft_of, sizeMultiplier_of.
  cbn [req_location req_total_sqft req_bhk].
  assert (Hq : inject_Z bhk <= inject_Z bhk') by now rewrite <- Zle_Qle.
  destruct (Qlt_le_dec total_sqft 1000); [lra|].
  destruct (Qlt_le_dec 2000 total_sqft); lra.
Qed.

(** X20: with the same location, at least zero bedrooms and the same random
    source, a larger area never gets a higher price per square foot. *)
Theorem mock_price_antitone_in_sqft
    (location : string) (total_sqft total_sqft' : Q) (bhk bath bath' : Z)
    (balcony balcony' : Z) (area_type area_type' : string) (n : nat) :
  (0 <= bhk)%Z ->
  total_sqft <= total_sqft' ->
  predicted_price_per_sqft
    (estimate rand toFixed
       (mkRequest location total_sqft' bhk bath' balcony' area_type') n)
  <= predicted_price_per_sqft
       (estimate rand toFixed
          (mkRequest location total_sqft bhk bath balcony area_type) n).
Proof.
  intros Hb Hs.
  destruct (estimate_fields rand toFixed
              (mkRequest location total_sqft bhk bath balcony area_type) n)
    as (_ & _ & _ & H1 & _).
  destruct (estimate_fields rand toFixed
              (mkRequest location total_sqft' bhk bath' balcony' area_type')
              n) as (_ & _ & _ & H2 & _).
  cbv zeta in H1, H2. rewrite H1, H2. apply round2_le.
  unfold jitter_cursor, pricePerSqft_of, sizeMultiplier_of.
  cbn [req_location req_total_sqft req_bhk].
  assert (Hq : 0 <= inject_Z bhk).
  { change 0 with (inject_Z 0). now rewrite <- Zle_Qle. }
  destruct (Qlt_le_dec total_sqft 1000), (Qlt_le_dec total_sqft' 1000),
    (Qlt_le_dec 2000 total_sqft), (Qlt_le_dec 2000 total_sqft'); lra.
Qed.

(** X21: for at least zero bedrooms the price per square foot is at least 3595
    and the total price is not negative when the area is not. *)
Theorem mock_price_positive (formData : PredictionRequest) (n : nat) :
  (0 <= req_bhk formData)%Z ->
  0 <= req_total_sqft formData ->
  3595 <= predicted_price_per_sqft (estimate rand toFixed formData n)
  /\ 0 <= total_estimated_price (estimate rand toFixed formData n).
Proof.
  intros Hb Hs.
  destruct (estimate_fields rand toFixed formData n)
    as (_ & _ & _ & Hp & Ht & _).
  cbv zeta in Hp, Ht. rewrite Hp, Ht.
  pose proof (pricePerSqft_pos formData _ Hb
                (rand_range (jitter_cursor rand formData n))) as Hpos.
  set (p := pricePerSqft_of formData _) in *.
  split.
  - assert (E : round2 3595 == 3595) by reflexivity.
    rewrite <- E. now apply round2_le.
  - assert (E : round2 0 == 0) by reflexivity.
    rewrite <- E. apply round2_le. nra.
Qed.

(** X22: the interval is not guarded against a negative bedroom count: for
    [bhk <= -6] the price is negative and the bounds come out in the
    reverse order, [upper < predicted_price_per_sqft < lower]. *)
Theorem mock_negative_bhk_inverts_interval
    (formData : PredictionRequest) (n : nat) :
  (req_bhk formData <= -6)%Z ->
  let r := estimate rand toFixed formData n in
  predicted_price_per_sqft r < 0
  /\ upper (confidence_interval r) < predicted_price_per_sqft r
  /\ predicted_price_per_sqft r < lower (confidence_interval r).
Proof.
  intros Hb r.
  destruct (estimate_fields rand toFixed formData n)
    as (_ & _ & _ & Hp & _ & Hl & Hu & _).
  fold r in Hp, Hl, Hu. rewrite Hp, Hl, Hu.
  pose proof (rand_range (jitter_cursor rand formData n)) as [R0 R1].
  assert (Hq : inject_Z (req_bhk formData) <= -6).
  { change (-6) with (inject_Z (-6)). now rewrite <- Zle_Qle. }
  assert (Hneg : pricePerSqft_of formData
                   (rand (jitter_cursor rand formData n)) < -670).
  { unfold pricePerSqft_of.
    destruct (sizeMultiplier_cases formData) as [-> | [-> | ->]]; lra. }
  set (p := pricePerSqft_of formData _) in *.
  pose proof (round2_error p) as [E1 E2].
  pose proof (round2_error (p * 0.85)) as [E3 E4].
  pose proof (round2_error (p * 1.15)) as [E5 E6].
  repeat split; lra.
Qed.

(** X23: the four comparables carry the four fixed labels, each once. *)
Theorem mock_comparable_names (formData : PredictionRequest) (n : nat) :
  Permutation
    [ "Near Location"; "Nearby Area"; "Close By"; "Adjacent" ]%string
    (List.map c_location
       (comparables_of (estimate rand toFixed formData n))).
Proof.
  destruct (estimate_fields rand toFixed formData n)
    as (_ & _ & _ & _ & _ & _ & _ & Hn).
  cbv zeta in Hn. unfold comparables_of. rewrite Hn.
  unfold generateMockComparables, rbind.
  match goal with
  | |- context [comparables_loop rand ?c ?b 4 0 [] ?k] =>
      assert (E : List.map c_location
                    (fst (comparables_loop rand c b 4 0 [] k)) = locations)
        by reflexivity;
      destruct (comparables_loop rand c b 4 0 [] k) as [l k']
  end.
  cbn [fst rret] in *. change (Permutation locations
    (List.map c_location (Js.Array_sort by_distance l))).
  rewrite <- E. apply Permutation_map, Array_sort_perm.
Qed.

End EstimatorExtras.

(** ** Popups and the locations list *)

(** X13: a popup always starts with its title; it then has one line per
    optional field that is present and not empty, so an empty field is
    treated like a missing one. *)
Theorem createPopupContent_shape (data : PopupData) :
  hd_error (createPopupContent data) = Some (Div "popup-title" (title data))
  /\ List.length (createPopupContent data) = S (shown_fields data)
  /\ createPopupContent (without_empty_fields data) = createPopupContent data.
Proof.
  destruct data as [t [[|c1 d1]|] [[|c2 d2]|] [[|c3 d3]|] [[|c4 d4]|]];
    repeat split.
Qed.

Lemma append_options_app (names datalist : list string) :
  append_options names datalist = (datalist ++ names)%list.
Proof.
  unfold append_options. revert datalist.
  induction names as [|name names IH]; intros datalist; cbn.
  - now rewrite app_nil_r.
  - rewrite IH, <- app_assoc. reflexivity.
Qed.

(** X14: [loadLocations] keeps the options that are there and appends, in
    order, the names the backend sent or, on any failure, the names of the
    estimator's location table. *)
Theorem loadLocations_appends (outcome : LocationsOutcome)
    (datalist : list string) :
  loadLocations outcome datalist =
  (datalist ++ match outcome with
               | LocationsStatus2xx (Some names) => names
               | _ => List.map fst locationMap
               end)%list.
Proof.
  unfold loadLocations.
  destruct outcome as [|[names|]|]; cbn [fetch_locations];
    now rewrite append_options_app.
Qed.

Section FallbackSuggestions.

Variable rand : nat -> Q.

(** X15: every suggestion offered when the locations cannot be loaded, typed in
    any letter case, resolves to a tabulated coordinate without drawing a
    random number. *)
Theorem fallback_suggestion_resolves (outcome : LocationsOutcome)
    (suggestion location : string) (n : nat) :
  fetch_locations outcome = None ->
  In suggestion (loadLocations outcome []) ->
  Js.toLowerCase location = Js.toLowerCase suggestion ->
  exists coords,
    In (suggestion, coords) locationMap
    /\ getMockCoordinates rand location n = (coords, n).
Proof.
  intros Hf Hin Hl. unfold loadLocations in Hin. rewrite Hf in Hin.
  rewrite append_options_app in Hin. cbn [app] in Hin.
  unfold getMockCoordinates. rewrite Hl.
  cbn in Hin.
  repeat (destruct Hin as [<- | Hin];
          [eexists; split; [|reflexivity]; cbn; tauto|]).
  contradiction.
Qed.

End FallbackSuggestions.

(** ** The prediction client on every path *)

Lemma try_catch_finally_showLoading {A} (body : Eff A)
    (handler : Exn -> Eff A) (s : AppState) :
  loading_overlay_hidden
    (dom (final_state
            (try_catch_finally body handler (showLoading false) s))) = true.
Proof.
  unfold try_catch_finally.
  destruct (body s) as [a s1 | e s1].
  - reflexivity.
  - destruct (handler e s1) as [a s2 | e2 s2]; reflexivity.
Qed.

Lemma updateMap_without_map (toLocaleString toString : Q -> string)
    (result : PredictionResult) (s : AppState) :
  map s = None ->
  exists message s',
    updateMap toLocaleString toString result s
    = Thrown (TypeError message) s'
    /\ dom s' = dom s /\ rng s' = rng s /\ map s' = None.
Proof.
  intros Hm. destruct s as [d h mp ms pm rg]. cbn in Hm. subst mp.
  unfold updateMap, clearMarkers.
  destruct ms as [|x ms]; [destruct pm as [p|]|];
    cbn [forEach]; run_eff; do 2 eexists; (split; [reflexivity|]);
    repeat split.
Qed.

Section ClientExtras.

Variable rand : nat -> Q.
Variable toFixed : Q -> nat -> string.
Variable toLocaleString : Q -> string.
Variable toString : Q -> string.

Abbreviation predictPrice' :=
  (predictPrice rand toFixed toLocaleString toString).

(** X5: whatever the state and the backend's answer, and whether
    [predictPrice] returns or throws, it leaves the loading overlay
    hidden. *)
Theorem predictPrice_always_hides_overlay (formData : PredictionRequest)
    (outcome : FetchOutcome) (s : AppState) :
  loading_overlay_hidden
    (dom (final_state (predictPrice' formData outcome s))) = true.
Proof.
  unfold predictPrice. unfold bind at 1.
  unfold showLoading at 1, modify at 1.
  apply try_catch_finally_showLoading.
Qed.

(** X6: the reason of a failure never reaches the page: any two failing
    answers of the backend leave [predictPrice] with the same outcome. *)
Theorem predictPrice_ignores_failure_reason (formData : PredictionRequest)
    (outcome outcome' : FetchOutcome) (s : AppState) :
  backend_failed outcome = true ->
  backend_failed outcome' = true ->
  predictPrice' formData outcome s = predictPrice' formData outcome' s.
Proof.
  intros H H'.
  destruct outcome as [|[r|]|[d|]]; try discriminate H;
    destruct outcome' as [|[r'|]|[d'|]]; try discriminate H';
    reflexivity.
Qed.

(** X4: on a 2xx answer with a well-formed body the backend's result is shown
    as it came, in the display fields and on the map, and no random
    number is drawn. *)
Theorem predictPrice_shows_backend_result (formData : PredictionRequest)
    (result : PredictionResult) (s : AppState) :
  tracked s = true ->
  exists s',
    predictPrice' formData (Status2xx (Some result)) s = Returned tt s'
    /\ displays toLocaleString toString (dom s') result
    /\ markers_on_map s' = shown_markers result
    /\ loading_overlay_hidden (dom s') = true
    /\ rng s' = rng s.
Proof.
  intros Ht. destruct (tracked_map s Ht) as [m Hm].
  rewrite (predictPrice_success rand toFixed toLocaleString toString
             formData result s m Hm).
  destruct (render_sequence_run toLocaleString toString result s m Hm)
    as (s' & Hrun & Hd & Hl & Hr & Hmap).
  exists s'. split; [exact Hrun|]. split; [exact Hd|].
  split; [now apply Hmap|]. split; [exact Hl | exact Hr].
Qed.

Lemma displayResults_displays (result : PredictionResult) (s : AppState) :
  exists s',
    displayResults toLocaleString toString result s = Returned tt s'
    /\ displays toLocaleString toString (dom s') result
    /\ map s' = map s /\ rng s' = rng s.
Proof.
  destruct (displayResults_run toLocaleString toString result s)
    as (s' & Hrun & Hd & _ & _ & Hm & _ & _ & Hr).
  exists s'. split; [exact Hrun|]. split; [exact Hd|]. now split.
Qed.

Lemma try_body_without_map (outcome : FetchOutcome) (s : AppState) :
  map s = None ->
  exists e s1,
    (result <- fetch_prediction outcome ;;
     displayResults toLocaleString toString result ;;
     updateMap toLocaleString toString result)%eff s = Thrown e s1
    /\ map s1 = None /\ rng s1 = rng s.
Proof.
  intros Hm.
  destruct outcome as [|[r|]|[detail|]]; cbn [fetch_prediction];
    try (unfold bind, throw; do 2 eexists;
         split; [reflexivity | now split]).
  unfold bind at 1, ret. unfold bind.
  destruct (displayResults_displays r s) as (s1 & -> & _ & Hm1 & Hr1).
  rewrite Hm in Hm1.
  destruct (updateMap_without_map toLocaleString toString r s1 Hm1)
    as (msg & s2 & -> & _ & Hr2 & Hm2).
  do 2 eexists. split; [reflexivity|]. split; [exact Hm2 | congruence].
Qed.

Lemma catch_handler_without_map (formData : PredictionRequest)
    (s : AppState) :
  map s = None ->
  exists message s',
    (mockResult <-
       Math_random_eff (generateMockPrediction rand toFixed formData) ;;
     displayResults toLocaleString toString mockResult ;;
     updateMap toLocaleString toString mockResult)%eff s
    = Thrown (TypeError message) s'
    /\ displays toLocaleString toString (dom s')
         (fst (generateMockPrediction rand toFixed formData (rng s))).
Proof.
  intros Hm. unfold bind at 1. unfold Math_random_eff.
  destruct (generateMockPrediction rand toFixed formData (rng s))
    as [mock n']. cbn [fst].
  unfold bind.
  destruct (displayResults_displays mock (set_rng n' s))
    as (s1 & -> & Hd & Hm1 & _).
  assert (Hnone : map s1 = None) by (rewrite Hm1; now destruct s).
  destruct (updateMap_without_map toLocaleString toString mock s1 Hnone)
    as (msg & s2 & -> & Hd2 & _).
  exists msg, s2. split; [reflexivity|]. now rewrite Hd2.
Qed.

(** X7: before the map exists [predictPrice] does not absorb the failure: it
    throws a [TypeError], for every answer of the backend, after it has
    written the mock result into the display fields. *)
Theorem predictPrice_without_map_throws (formData : PredictionRequest)
    (outcome : FetchOutcome) (s : AppState) :
  map s = None ->
  exists message s',
    predictPrice' formData outcome s = Thrown (TypeError message) s'
    /\ displays toLocaleString toString (dom s')
         (fst (generateMockPrediction rand toFixed formData (rng s)))
    /\ loading_overlay_hidden (dom s') = true.
Proof.
  intros Hm. unfold predictPrice. unfold bind at 1.
  unfold showLoading at 1, modify at 1. unfold try_catch_finally.
  set (s0 := set_dom _ s).
  assert (Hm0 : map s0 = None) by (now destruct s).
  assert (Hr0 : rng s0 = rng s) by (now destruct s).
  destruct (try_body_without_map outcome s0 Hm0)
    as (e & s1 & -> & Hm1 & Hr1).
  destruct (catch_handler_without_map formData s1 Hm1)
    as (msg & s2 & -> & Hd).
  exists msg. eexists. split; [reflexivity|].
  rewrite Hr1, Hr0 in Hd. split; [|reflexivity].
  destruct s2 as [d2 h2 mp2 ms2 pm2 rg2]. exact Hd.
Qed.

End ClientExtras.

(** ** The map after an update, and clicks on comparables *)

Lemma Qabs_self_small (x : Q) : Qabs (x - x) < 0.0001.
Proof.
  assert (E : x - x == 0) by ring. rewrite E. reflexivity.
Qed.

Lemma focus_popup_spec (h : list LObject) (comp : Comparable)
    (ms : list nat) :
  forall open : option nat,
    (focus_popup h comp ms open = open
     /\ existsb (marker_near h comp) ms = false)
    \/ (exists id,
          focus_popup h comp ms open = Some id
          /\ In id ms /\ marker_near h comp id = true
          /\ existsb (marker_near h comp) ms = true).
Proof.
  unfold focus_popup.
  induction ms as [|x ms IH]; intros open; cbn [fold_left existsb].
  - now left.
  - destruct (IH (if marker_near h comp x then Some x else open))
      as [[Hf Hn] | (id & Hf & Hin & Hnear & He)].
    + destruct (marker_near h comp x) eqn:Ex.
      * right. exists x. rewrite Hf. cbn. now repeat split; try left.
      * left. now rewrite Hf, Hn.
    + right. exists id. rewrite Hf, He, orb_true_r.
      now repeat split; try right.
Qed.

Lemma forEach_focus (comp : Comparable) (ms : list nat) :
  forall (s : AppState) (m : LMap),
    map s = Some m ->
    forallb (fun id => is_marker (heap s) id
                       && existsb (Nat.eqb id) (layers m)) ms = true ->
    forEach ms (fun marker =>
      markerLatLng <- L.getLatLng marker ;;
      if Qlt_le_dec (Qabs (fst markerLatLng - c_latitude comp)) 0.0001 then
        if Qlt_le_dec (Qabs (snd markerLatLng - c_longitude comp)) 0.0001
        then L.openPopup marker
        else ret tt
      else ret tt)%eff s =
    Returned tt
      (set_map (Some (mkLMap (view m) (layers m)
                        (focus_popup (heap s) comp ms (open_popup m)))) s).
Proof.
  induction ms as [|x ms IH]; intros s m Hm Hv.
  - destruct s as [d h mp l pm rg]. cbn in Hm. subst mp.
    now destruct m.
  - cbn [forallb] in Hv. apply andb_true_iff in Hv. destruct Hv as [Hx Hv].
    apply andb_true_iff in Hx. destruct Hx as [Hmk Hin].
    destruct s as [d h mp l pm rg]. cbn in Hm. subst mp.
    destruct m as [v ls op]. cbn [heap layers] in *.
    cbn [forEach]. unfold bind at 1. unfold bind at 1.
    unfold L.getLatLng, is_marker in *. cbn [heap] in *.
    unfold focus_popup. cbn [fold_left]. unfold marker_near at 2.
    destruct (nth_error h x) as [[|ll ic pp]|]; try discriminate Hmk.
    destruct (Qlt_le_dec (Qabs (fst ll - c_latitude comp)) 0.0001);
      [destruct (Qlt_le_dec (Qabs (snd ll - c_longitude comp)) 0.0001)|].
    + unfold L.openPopup, modify. cbn [map layers]. rewrite Hin.
      rewrite (IH _ (mkLMap v ls (Some x))) by (reflexivity || exact Hv).
      reflexivity.
    + unfold ret at 1.
      rewrite (IH _ (mkLMap v ls op)) by (reflexivity || exact Hv).
      reflexivity.
    + unfold ret at 1.
      rewrite (IH _ (mkLMap v ls op)) by (reflexivity || exact Hv).
      reflexivity.
Qed.

Lemma focusComparable_run (comp : Comparable) (s : AppState) (m : LMap) :
  map s = Some m ->
  markers_valid s = true ->
  focusComparable comp s =
  Returned tt
    (set_map (Some (mkLMap (ViewAt (c_latitude comp, c_longitude comp) 15)
                      (layers m)
                      (focus_popup (heap s) comp (markers s)
                         (open_popup m)))) s).
Proof.
  intros Hm Hv. unfold markers_valid in Hv. rewrite Hm in Hv.
  unfold focusComparable. unfold bind at 1.
  unfold L.setView, L.on_map. rewrite Hm.
  unfold bind at 1, gets.
  destruct s as [d h mp l pm rg]. cbn in Hm. subst mp.
  cbn [markers set_map dom heap map predictionMarker rng] in *.
  erewrite forEach_focus; [| reflexivity | exact Hv]. reflexivity.
Qed.

(** X10: when some marker referenced by [markers] lies within the tolerance of
    the comparable, [focusComparable] centres the view on the comparable
    at zoom 15 and leaves open the popup of such a marker; it adds and
    removes nothing. *)
Theorem focusComparable_opens_nearby_marker (comp : Comparable)
    (s : AppState) :
  markers_valid s = true ->
  existsb (marker_near (heap s) comp) (markers s) = true ->
  exists s' m' id,
    focusComparable comp s = Returned tt s'
    /\ map s' = Some m'
    /\ view m' = ViewAt (c_latitude comp, c_longitude comp) 15
    /\ open_popup m' = Some id
    /\ In id (markers s)
    /\ marker_near (heap s) comp id = true
    /\ same_layers s s' /\ dom s' = dom s.
Proof.
  intros Hv Hex. destruct s as [d h [m|] l pm rg]; [|discriminate Hv].
  rewrite (focusComparable_run comp (mkApp d h (Some m) l pm rg) m eq_refl
             Hv).
  cbn [heap markers] in *.
  destruct (focus_popup_spec h comp l (open_popup m))
    as [[_ Hn] | (id & Hf & Hin & Hnear & _)]; [congruence|].
  do 2 eexists. exists id.
  split; [reflexivity|].
  cbn [map set_map layers view open_popup heap markers dom].
  split; [reflexivity|]. split; [reflexivity|]. split; [exact Hf|].
  split; [exact Hin|]. split; [exact Hnear|].
  split; [|reflexivity]. now repeat split.
Qed.

(** X11: when no marker referenced by [markers] lies within the tolerance,
    [focusComparable] only moves the view: the popup that was open stays
    the open one. *)
Theorem focusComparable_without_nearby_marker (comp : Comparable)
    (s : AppState) :
  markers_valid s = true ->
  existsb (marker_near (heap s) comp) (markers s) = false ->
  exists m s' m',
    map s = Some m
    /\ focusComparable comp s = Returned tt s'
    /\ map s' = Some m'
    /\ view m' = ViewAt (c_latitude comp, c_longitude comp) 15
    /\ open_popup m' = open_popup m
    /\ layers m' = layers m.
Proof.
  intros Hv Hex. destruct s as [d h [m|] l pm rg]; [|discriminate Hv].
  exists m.
  rewrite (focusComparable_run comp (mkApp d h (Some m) l pm rg) m eq_refl
             Hv).
  cbn [heap markers] in *.
  destruct (focus_popup_spec h comp l (open_popup m))
    as [[Hf _] | (id & _ & _ & _ & He)]; [|congruence].
  do 2 eexists. split; [reflexivity|]. split; [reflexivity|].
  cbn [map set_map layers view open_popup].
  split; [reflexivity|]. split; [reflexivity|]. split; [exact Hf|].
  reflexivity.
Qed.

Lemma same_layers_markers_on_map (s s' : AppState) :
  same_layers s s' -> markers_on_map s' = markers_on_map s.
Proof.
  intros (Hh & _ & _ & Hl). unfold markers_on_map. rewrite Hh.
  destruct (map s) as [m|], (map s') as [m'|]; cbn in Hl;
    try discriminate; [|reflexivity].
  now injection Hl as ->.
Qed.

Lemma same_layers_markers_valid (s s' : AppState) :
  same_layers s s' -> markers_valid s' = markers_valid s.
Proof.
  intros (Hh & Hms & _ & Hl). unfold markers_valid. rewrite Hh, Hms.
  destruct (map s) as [m|], (map s') as [m'|]; cbn in Hl;
    try discriminate; [|reflexivity].
  now injection Hl as ->.
Qed.

Lemma one_primary_marker_shown (result : PredictionResult) :
  one_primary_marker (shown_markers result) = true.
Proof.
  unfold shown_markers. cbn.
  induction (comparables_of result) as [|c comps IH]; [reflexivity|].
  exact IH.
Qed.

Section MapExtras.

Variable toLocaleString : Q -> string.
Variable toString : Q -> string.

Abbreviation updated' := (updated toLocaleString toString).
Abbreviation updateMap' := (updateMap toLocaleString toString).

Lemma nth_error_fresh (h : list LObject) (p : LObject)
    (comps : list Comparable) (j : nat) :
  nth_error
    (h ++ p :: List.map (comparable_marker toLocaleString toString) comps)
    (S (List.length h) + j) =
  option_map (comparable_marker toLocaleString toString)
             (nth_error comps j).
Proof.
  rewrite nth_error_app2 by lia.
  replace (S (List.length h) + j - List.length h)%nat with (S j) by lia.
  cbn [nth_error]. apply nth_error_map.
Qed.

Lemma updated_markers_valid (result : PredictionResult) (s : AppState)
    (m : LMap) :
  markers_valid (updated' result s m) = true.
Proof.
  unfold markers_valid, updated. cbn [map heap markers layers].
  apply forallb_forall. intros id Hid. apply in_seq in Hid.
  apply andb_true_iff. split.
  - unfold is_marker.
    replace id with (S (List.length (heap s))
                     + (id - S (List.length (heap s))))%nat by lia.
    rewrite nth_error_fresh.
    destruct (nth_error (comparables_of result)
                (id - S (List.length (heap s)))) eqn:E; [reflexivity|].
    apply nth_error_None in E. lia.
  - apply existsb_exists. exists id. split; [|apply Nat.eqb_refl].
    apply in_or_app. right. right. apply in_seq. lia.
Qed.

Lemma updated_marker_near (result : PredictionResult) (s : AppState)
    (m : LMap) (comp : Comparable) :
  In comp (comparables_of result) ->
  existsb (marker_near (heap (updated' result s m)) comp)
          (markers (updated' result s m)) = true.
Proof.
  intros Hin. apply In_nth_error in Hin. destruct Hin as [j Hj].
  assert (Hlt : (j < List.length (comparables_of result))%nat).
  { apply nth_error_Some. congruence. }
  apply existsb_exists. exists (S (List.length (heap s)) + j)%nat.
  unfold updated. cbn [heap markers]. split; [apply in_seq; lia|].
  unfold marker_near. rewrite nth_error_fresh, Hj.
  cbn [option_map comparable_marker fst snd].
  destruct (Qlt_le_dec _ _) as [_ | H];
    [|exfalso; apply (Qlt_not_le _ _ (Qabs_self_small (c_latitude comp)) H)].
  destruct (Qlt_le_dec _ _) as [_ | H];
    [reflexivity
    |exfalso; apply (Qlt_not_le _ _ (Qabs_self_small (c_longitude comp)) H)].
Qed.

(** X8: after [updateMap] the popup of the new prediction marker is open, and
    the view fits the prediction marker with all comparable markers at a
    padding of 0.2, or, when the result has no comparables (an empty list
    or none at all), is centred on the prediction at zoom 14. *)
Theorem updateMap_viewport (result : PredictionResult) (s : AppState)
    (m : LMap) :
  map s = Some m ->
  exists s' m' pm,
    updateMap' result s = Returned tt s'
    /\ map s' = Some m'
    /\ predictionMarker s' = Some pm
    /\ open_popup m' = Some pm
    /\ nth_error (heap s') pm = Some (prediction_marker toLocaleString result)
    /\ List.length (markers s') = List.length (comparables_of result)
    /\ view m' =
       match comparables_of result with
       | [] => ViewAt (latitude (coordinates result),
                       longitude (coordinates result)) 14
       | _ :: _ => ViewFit (pm :: markers s') 0.2
       end
    /\ dom s' = dom s /\ rng s' = rng s.
Proof.
  intros Hm. rewrite (updateMap_run toLocaleString toString result s m Hm).
  do 2 eexists. exists (List.length (heap s)).
  split; [reflexivity|]. unfold updated.
  cbn [map predictionMarker open_popup heap markers view dom rng].
  split; [reflexivity|]. split; [reflexivity|]. split; [reflexivity|].
  split.
  { rewrite nth_error_app2, Nat.sub_diag by lia. reflexivity. }
  split; [apply length_seq|].
  split; [|now split].
  destruct (comparables_of result); reflexivity.
Qed.

(** X9: after [updateMap], a click on any comparable of the result returns
    normally, centres the view on it at zoom 15 and leaves open the popup
    of a comparable marker within the tolerance of its position; the
    markers on the map stay the same. *)
Theorem click_on_listed_comparable (result : PredictionResult)
    (comp : Comparable) (s : AppState) (m : LMap) :
  map s = Some m ->
  In comp (comparables_of result) ->
  exists s1 s2 m2 id,
    updateMap' result s = Returned tt s1
    /\ focusComparable comp s1 = Returned tt s2
    /\ map s2 = Some m2
    /\ view m2 = ViewAt (c_latitude comp, c_longitude comp) 15
    /\ open_popup m2 = Some id
    /\ In id (markers s1)
    /\ marker_near (heap s1) comp id = true
    /\ markers_on_map s2 = markers_on_map s1.
Proof.
  intros Hm Hin.
  rewrite (updateMap_run toLocaleString toString result s m Hm).
  set (s1 := updated' result s m).
  pose proof (updated_markers_valid result s m) as Hv.
  pose proof (updated_marker_near result s m comp Hin) as Hex.
  fold s1 in Hv, Hex.
  destruct (map s1) as [m1|] eqn:Hm1;
    [|unfold markers_valid in Hv; now rewrite Hm1 in Hv].
  destruct (focus_popup_spec (heap s1) comp (markers s1) (open_popup m1))
    as [[_ Hn] | (id & Hf & Hid & Hnear & _)]; [congruence|].
  set (m2 := mkLMap (ViewAt (c_latitude comp, c_longitude comp) 15)
               (layers m1)
               (focus_popup (heap s1) comp (markers s1) (open_popup m1))).
  exists s1, (set_map (Some m2) s1), m2, id.
  split; [reflexivity|].
  split; [exact (focusComparable_run comp s1 m1 Hm1 Hv)|].
  split; [now destruct s1|].
  split; [reflexivity|]. split; [exact Hf|].
  split; [exact Hid|]. split; [exact Hnear|].
  unfold markers_on_map. rewrite Hm1. now destruct s1.
Qed.

End MapExtras.

(** ** Initialisation and the states a session reaches *)

Lemma nth_error_last {A} (l : list A) (x : A) :
  nth_error (l ++ [x]) (List.length l) = Some x.
Proof. rewrite nth_error_app2, Nat.sub_diag by lia. reflexivity. Qed.

Lemma nth_error_before_last {A} (l : list A) (x y : A) :
  nth_error ((l ++ [x]) ++ [y]) (List.length l) = Some x.
Proof.
  rewrite nth_error_app1 by (rewrite length_app; cbn; lia).
  apply nth_error_last.
Qed.

(** X12: on a page without a map, [initMap] returns normally with the view on
    the city centre at the default zoom and exactly one marker on the
    map, the centre marker with its closed popup, referenced by
    [predictionMarker]; the invariant of the map renderer holds. *)
Theorem initMap_shows_center_marker (s : AppState) :
  map s = None ->
  exists s' m' pm,
    initMap s = Returned tt s'
    /\ map s' = Some m'
    /\ view m' = ViewAt CONFIG.BANGALORE_CENTER CONFIG.DEFAULT_ZOOM
    /\ open_popup m' = None
    /\ markers_on_map s' = [(CONFIG.BANGALORE_CENTER, pulsing_marker)]
    /\ predictionMarker s' = Some pm
    /\ nth_error (heap s') pm =
       Some (Marker CONFIG.BANGALORE_CENTER pulsing_marker
               (Some [Div "popup-title" "Bangalore City Center";
                      Div "popup-details"
                        "Enter property details to get a price prediction"]))
    /\ tracked s' = true
    /\ dom s' = dom s /\ markers s' = markers s.
Proof.
  intros Hm. destruct s as [d h mp ms pm rg]. cbn in Hm. subst mp.
  unfold initMap, addCenterMarker, L.tileLayer. run_eff.
  rewrite update_nth_last.
  do 2 eexists. exists (List.length (h ++ [TileLayer])).
  split; [reflexivity|].
  cbn [map view open_popup predictionMarker heap dom markers].
  split; [reflexivity|]. split; [reflexivity|]. split; [reflexivity|].
  split.
  { unfold markers_on_map. cbn [map heap layers flat_map app].
    unfold marker_of. rewrite nth_error_before_last, nth_error_last.
    reflexivity. }
  split; [reflexivity|].
  split; [rewrite nth_error_last; reflexivity|].
  split; [|now split].
  unfold tracked. cbn [map heap layers forallb app].
  unfold marker_of, is_tracked. cbn [predictionMarker].
  rewrite nth_error_before_last, nth_error_last, Nat.eqb_refl.
  rewrite !length_app. cbn [List.length].
  rewrite orb_true_r, !andb_true_r.
  apply andb_true_iff. split; apply Nat.ltb_lt; lia.
Qed.

Section SessionExtras.

Variable rand : nat -> Q.
Variable toFixed : Q -> nat -> string.
Variable toLocaleString : Q -> string.
Variable toString : Q -> string.

Abbreviation reachable' := (reachable rand toFixed toLocaleString toString).
Abbreviation predictPrice' :=
  (predictPrice rand toFixed toLocaleString toString).

(** What a submission leaves of the map: the layers, the heap and the
    references are those of [updateMap] for the result it rendered. *)
Lemma predictPrice_layers (formData : PredictionRequest)
    (outcome : FetchOutcome) (s : AppState) (m : LMap) :
  map s = Some m ->
  exists result s',
    predictPrice' formData outcome s = Returned tt s'
    /\ same_layers (updated toLocaleString toString result s m) s'.
Proof.
  intros Hm. destruct s as [d h mp ms pm rg]. cbn in Hm. subst mp.
  destruct outcome as [|[r|]|[detail|]]; run_client;
    try destruct (generateMockPrediction rand toFixed formData rg)
      as [mock n'];
    erewrite updateMap_run by reflexivity;
    do 2 eexists; (split; [reflexivity|]); now repeat split.
Qed.

Lemma reachable_invariant (s : AppState) :
  reachable' s ->
  tracked s = true
  /\ markers_valid s = true
  /\ one_primary_marker (markers_on_map s) = true
  /\ List.length (markers_on_map s) = S (List.length (markers s))
  /\ predictionMarker s <> None.
Proof.
  induction 1 as [| s formData outcome _ IH | s comp _ IH].
  - repeat split; try reflexivity. discriminate.
  - destruct IH as (Ht & _).
    destruct (tracked_map s Ht) as [m Hm].
    destruct (predictPrice_layers formData outcome s m Hm)
      as (r & s' & -> & Hsame).
    cbn [final_state].
    rewrite (same_layers_tracked _ _ Hsame).
    rewrite (same_layers_markers_valid _ _ Hsame).
    rewrite (same_layers_markers_on_map _ _ Hsame).
    destruct Hsame as (_ & -> & -> & _).
    rewrite (markers_on_map_updated toLocaleString toString r s m Hm Ht).
    split; [exact (tracked_updated toLocaleString toString r s m Hm Ht)|].
    split; [apply updated_markers_valid|].
    split; [apply one_primary_marker_shown|].
    split; [|discriminate].
    unfold shown_markers, updated. cbn [List.length markers].
    now rewrite length_map, length_seq.
  - pose proof (focusComparable_same_layers comp s) as Hsame.
    rewrite (same_layers_tracked _ _ Hsame).
    rewrite (same_layers_markers_valid _ _ Hsame).
    rewrite (same_layers_markers_on_map _ _ Hsame).
    destruct Hsame as (_ & -> & -> & _). exact IH.
Qed.

(** X2: in every state a session reaches the map shows exactly one primary
    marker (the centre marker or the latest prediction) followed by one
    comparable marker per entry of [markers], and [predictionMarker] is
    set. *)
Theorem reachable_shows_one_primary_marker (s : AppState) :
  reachable' s ->
  one_primary_marker (markers_on_map s) = true
  /\ List.length (markers_on_map s) = S (List.length (markers s))
  /\ predictionMarker s <> None.
Proof. intros H. now destruct (reachable_invariant s H) as (_ & _ & H'). Qed.

(** X3: in every state a session reaches, a form submission returns normally
    whatever the backend answers, and so does a click on any comparable,
    which adds and removes no marker. *)
Theorem reachable_events_never_throw (s : AppState) :
  reachable' s ->
  (forall formData outcome,
      exists s', predictPrice' formData outcome s = Returned tt s')
  /\ (forall comp,
        exists s',
          focusComparable comp s = Returned tt s'
          /\ markers_on_map s' = markers_on_map s).
Proof.
  intros H. destruct (reachable_invariant s H) as (Ht & Hv & _).
  destruct (tracked_map s Ht) as [m Hm]. split.
  - intros formData outcome.
    destruct (predictPrice_layers formData outcome s m Hm)
      as (r & s' & Hrun & _).
    now exists s'.
  - intros comp. eexists. split.
    + exact (focusComparable_run comp s m Hm Hv).
    + unfold markers_on_map. rewrite Hm. now destruct s.
Qed.

End SessionExtras.

(** ** Witnesses of the further properties *)

Lemma after_submit_reachable :
  reachable sample_rand sample_toFixed sample_format sample_format
    after_submit.
Proof. exact (reach_submit _ _ _ _ _ _ _ (reach_init _ _ _ _)). Qed.

Lemma matching_location_gets_table_coordinates_witness :
  exists key coords,
    In (key, coords) locationMap
    /\ key_matches (Js.toLowerCase "HSR Layout Sector 2") key = true
    /\ getMockCoordinates sample_rand "HSR Layout Sector 2" 5%nat
       = (coords, 5%nat).
Proof.
  exact (matching_location_gets_table_coordinates sample_rand
           "HSR Layout Sector 2" 5 eq_refl).
Defined.

Lemma table_key_resolves_to_own_entry_witness :
  getMockCoordinates sample_rand "jp NAGAR" 0%nat = ((12.9064, 77.5857), 0%nat).
Proof.
  apply (table_key_resolves_to_own_entry sample_rand "jp NAGAR" "JP Nagar").
  - cbn. tauto.
  - reflexivity.
Defined.

Lemma mock_price_monotone_in_bhk_witness :
  predicted_price_per_sqft
    (estimate sample_rand sample_toFixed
       (mkRequest "Hebbal" 1200 1 1 0 "Plot Area") 0)
  <= predicted_price_per_sqft
       (estimate sample_rand sample_toFixed
          (mkRequest "Hebbal" 1200 4 3 2 "Built-up Area") 0).
Proof.
  apply (mock_price_monotone_in_bhk sample_rand sample_toFixed). lia.
Defined.

Lemma mock_price_antitone_in_sqft_witness :
  predicted_price_per_sqft
    (estimate sample_rand sample_toFixed
       (mkRequest "Hebbal" 2400 2 2 1 "Plot Area") 0)
  <= predicted_price_per_sqft
       (estimate sample_rand sample_toFixed
          (mkRequest "Hebbal" 900 2 1 0 "Plot Area") 0).
Proof.
  apply (mock_price_antitone_in_sqft sample_rand sample_toFixed).
  - lia.
  - discriminate.
Defined.

Lemma mock_price_positive_witness :
  3595 <= predicted_price_per_sqft sample_result
  /\ 0 <= total_estimated_price sample_result.
Proof.
  apply (mock_price_positive sample_rand sample_toFixed sample_rand_range
           koramangala_request 0).
  - cbn. lia.
  - discriminate.
Defined.

Lemma mock_negative_bhk_inverts_interval_witness :
  let r := estimate sample_rand sample_toFixed
             (mkRequest "Koramangala" 1500 (-6) 2 1 "Super built-up") 0 in
  predicted_price_per_sqft r < 0
  /\ upper (confidence_interval r) < predicted_price_per_sqft r
  /\ predicted_price_per_sqft r < lower (confidence_interval r).
Proof.
  apply (mock_negative_bhk_inverts_interval sample_rand sample_toFixed
           sample_rand_range
           (mkRequest "Koramangala" 1500 (-6) 2 1 "Super built-up") 0).
  cbn. lia.
Defined.

Lemma fallback_suggestion_resolves_witness :
  exists coords,
    In ("Bellandur"%string, coords) locationMap
    /\ getMockCoordinates sample_rand "BELLANDUR" 0%nat = (coords, 0%nat).
Proof.
  apply (fallback_suggestion_resolves sample_rand LocationsStatusOther
           "Bellandur" "BELLANDUR" 0).
  - reflexivity.
  - cbn. tauto.
  - reflexivity.
Defined.

Lemma predictPrice_ignores_failure_reason_witness :
  predictPrice sample_rand sample_toFixed sample_format sample_format
    koramangala_request NetworkError initialised
  = predictPrice sample_rand sample_toFixed sample_format sample_format
      koramangala_request (StatusOther (Some (Some "Model not loaded"%string)))
      initialised.
Proof.
  apply (predictPrice_ignores_failure_reason sample_rand sample_toFixed
           sample_format sample_format); reflexivity.
Defined.

Lemma predictPrice_shows_backend_result_witness :
  exists s',
    predictPrice sample_rand sample_toFixed sample_format sample_format
      unknown_request (Status2xx (Some sample_result)) after_submit
    = Returned tt s'
    /\ markers_on_map s' = shown_markers sample_result
    /\ rng s' = rng after_submit.
Proof.
  destruct (predictPrice_shows_backend_result sample_rand sample_toFixed
              sample_format sample_format unknown_request sample_result
              after_submit eq_refl)
    as (s' & H1 & _ & H2 & _ & H3).
  exists s'. split; [exact H1|]. split; [exact H2 | exact H3].
Defined.

Lemma predictPrice_without_map_throws_witness :
  exists message s',
    predictPrice sample_rand sample_toFixed sample_format sample_format
      koramangala_request NetworkError page_loaded
    = Thrown (TypeError message) s'
    /\ loading_overlay_hidden (dom s') = true.
Proof.
  destruct (predictPrice_without_map_throws sample_rand sample_toFixed
              sample_format sample_format koramangala_request NetworkError
              page_loaded eq_refl)
    as (message & s' & H1 & _ & H2).
  exists message, s'. split; [exact H1 | exact H2].
Defined.

Lemma focusComparable_opens_nearby_marker_witness :
  exists s' m' id,
    focusComparable listed_comparable after_submit = Returned tt s'
    /\ map s' = Some m'
    /\ open_popup m' = Some id
    /\ marker_near (heap after_submit) listed_comparable id = true.
Proof.
  destruct (focusComparable_opens_nearby_marker listed_comparable
              after_submit eq_refl eq_refl)
    as (s' & m' & id & H1 & H2 & _ & H3 & _ & H4 & _).
  exists s', m', id. repeat split; assumption.
Defined.

Lemma focusComparable_without_nearby_marker_witness :
  exists m s' m',
    map after_submit = Some m
    /\ focusComparable far_comparable after_submit = Returned tt s'
    /\ map s' = Some m'
    /\ open_popup m' = open_popup m.
Proof.
  destruct (focusComparable_without_nearby_marker far_comparable
              after_submit eq_refl eq_refl)
    as (m & s' & m' & H1 & H2 & H3 & _ & H4 & _).
  exists m, s', m'. repeat split; assumption.
Defined.

Lemma updateMap_viewport_witness :
  exists s' m' pm,
    updateMap sample_format sample_format sample_result initialised
    = Returned tt s'
    /\ map s' = Some m'
    /\ open_popup m' = Some pm
    /\ view m' = ViewFit (pm :: markers s') 0.2.
Proof.
  destruct (updateMap_viewport sample_format sample_format sample_result
              initialised
              {| view := ViewAt CONFIG.BANGALORE_CENTER CONFIG.DEFAULT_ZOOM;
                 layers := [0; 1]%nat; open_popup := None |} eq_refl)
    as (s' & m' & pm & H1 & H2 & _ & H3 & _ & _ & H4 & _).
  exists s', m', pm. repeat split; assumption.
Defined.

Lemma click_on_listed_comparable_witness :
  exists s1 s2 m2 id,
    updateMap sample_format sample_format sample_result initialised
    = Returned tt s1
    /\ focusComparable listed_comparable s1 = Returned tt s2
    /\ map s2 = Some m2
    /\ open_popup m2 = Some id
    /\ markers_on_map s2 = markers_on_map s1.
Proof.
  destruct (click_on_listed_comparable sample_format sample_format
              sample_result listed_comparable initialised
              {| view := ViewAt CONFIG.BANGALORE_CENTER CONFIG.DEFAULT_ZOOM;
                 layers := [0; 1]%nat; open_popup := None |} eq_refl)
    as (s1 & s2 & m2 & id & H1 & H2 & H3 & _ & H4 & _ & _ & H5).
  { vm_compute. left. reflexivity. }
  exists s1, s2, m2, id. repeat split; assumption.
Defined.

Lemma initMap_shows_center_marker_witness :
  exists s',
    initMap page_loaded = Returned tt s'
    /\ markers_on_map s' = [(CONFIG.BANGALORE_CENTER, pulsing_marker)]
    /\ tracked s' = true.
Proof.
  destruct (initMap_shows_center_marker page_loaded eq_refl)
    as (s' & m' & pm & H1 & _ & _ & _ & H2 & _ & _ & H3 & _).
  exists s'. repeat split; assumption.
Defined.

Lemma reachable_tracked_witness : tracked after_submit = true.
Proof.
  exact (reachable_tracked sample_rand sample_toFixed sample_format
           sample_format after_submit after_submit_reachable).
Defined.

Lemma reachable_shows_one_primary_marker_witness :
  one_primary_marker (markers_on_map after_submit) = true
  /\ List.length (markers_on_map after_submit)
     = S (List.length (markers after_submit))
  /\ predictionMarker after_submit <> None.
Proof.
  exact (reachable_shows_one_primary_marker sample_rand sample_toFixed
           sample_format sample_format after_submit after_submit_reachable).
Defined.

Lemma reachable_events_never_throw_witness :
  exists s',
    focusComparable far_comparable after_submit = Returned tt s'
    /\ markers_on_map s' = markers_on_map after_submit.
Proof.
  destruct (reachable_events_never_throw sample_rand sample_toFixed
              sample_format sample_format after_submit
              after_submit_reachable) as [_ H].
  exact (H far_comparable).
Defined.
